(** * Device provisioning job: a shallow embedding of
      [jobs/provision_device.py] and the properties of its deployment
      workflow.

    The Python job talks to three outside parties: the Nautobot inventory
    (the [Device] it is handed), the secret store and Golden Config plugin,
    and a NAPALM driver.  Each of them is an explicit parameter of the
    model; the job itself is a program in a small state-and-exception
    monad whose state holds what the job reads back later: the
    [napalm_device] local, the [_show_debug] attribute, the job log and a
    recording of every driver call with its outcome. *)

From Stdlib Require Import String Ascii List Bool Arith Lia.
Import ListNotations.
Local Open Scope string_scope.
Local Open Scope list_scope.

Set Implicit Arguments.

(** ** Python values the job handles *)

(** The exception classes the [except] clauses of [_deploy_config] tell
    apart.  Everything raised derives from Python's [Exception];
    [OtherException] is any class outside the three NAPALM ones. *)
Inductive ExnKind : Type :=
| ConnectionException
| CommitError
| ReplaceConfigException
| OtherException.

(** An exception instance: its class for [except] matching,
    [type(e).__name__], [str(e)] and what [traceback.format_exc()] prints
    for it. *)
Record Exn : Type := mkExn {
  exn_kind : ExnKind;
  exn_type_name : string;
  exn_str : string;
  exn_traceback : string
}.

(** The outcome of a call that may raise. *)
Inductive Result (A : Type) : Type :=
| Ok (a : A)
| Raise (e : Exn).
Arguments Ok {A} a.
Arguments Raise {A} e.

(** Logger tiers of the Nautobot job logger. *)
Inductive Level : Type := DEBUG | INFO | SUCCESS | WARNING | ERROR.

Definition LogEntry : Type := (Level * string)%type.

Definition level_eqb (a b : Level) : bool :=
  match a, b with
  | DEBUG, DEBUG | INFO, INFO | SUCCESS, SUCCESS
  | WARNING, WARNING | ERROR, ERROR => true
  | _, _ => false
  end.

(** [get_facts()] returns a dictionary; only [facts.get('hostname')] is
    read. *)
Definition Facts : Type := list (string * string).

Fixpoint dict_get (d : Facts) (k : string) : option string :=
  match d with
  | [] => None
  | (k', v) :: d' => if String.eqb k' k then Some v else dict_get d' k
  end.

(** How an f-string renders an optional value: [None] prints as "None". *)
Definition fmt_opt (o : option string) : string :=
  match o with
  | Some s => s
  | None => "None"
  end.

(** [s * n] on Python strings. *)
Fixpoint str_mul (s : string) (n : nat) : string :=
  match n with
  | O => ""
  | S n' => s ++ str_mul s n'
  end.

Definition nl : string := String (ascii_of_nat 10) EmptyString.

(** Python truthiness of a string. *)
Definition truthy (s : string) : bool :=
  match s with
  | EmptyString => false
  | String _ _ => true
  end.

(** [text.split("\n")] and ["\n".join(lines)]. *)
Fixpoint split_lines_aux (s : string) (cur : string) : list string :=
  match s with
  | EmptyString => [cur]
  | String c s' =>
      if Ascii.eqb c (ascii_of_nat 10)
      then cur :: split_lines_aux s' ""
      else split_lines_aux s' (cur ++ String c EmptyString)
  end.

Definition split_lines (s : string) : list string := split_lines_aux s "".

Fixpoint join_lines (l : list string) : string :=
  match l with
  | [] => ""
  | [x] => x
  | x :: l' => x ++ nl ++ join_lines l'
  end.

(** ** The inventory objects *)

(** [Platform.napalm_args] is a JSON field: absent, a dictionary, a
    string the job decodes itself, or any other JSON value (a list, a
    number, a boolean), kept with its Python truth value. *)
Inductive PyVal : Type :=
| VNone
| VDict (d : list (string * string))
| VStr (s : string)
| VOther (truth : bool) (repr : string).

Definition pyval_truthy (v : PyVal) : bool :=
  match v with
  | VNone => false
  | VDict [] => false
  | VDict (_ :: _) => true
  | VStr s => truthy s
  | VOther truth _ => truth
  end.

Record Platform : Type := mkPlatform {
  platform_name : string;
  napalm_driver : string;
  napalm_args : PyVal
}.

Record SecretsGroup : Type := mkSecretsGroup {
  sg_name : string
}.

(** [primary_ip4] holds [str(device.primary_ip4.address.ip)] when the
    device has a primary address. *)
Record Device : Type := mkDevice {
  name : string;
  platform : option Platform;
  primary_ip4 : option string;
  secrets_group : option SecretsGroup
}.

Inductive SecretType : Type := TYPE_USERNAME | TYPE_PASSWORD.
Inductive AccessType : Type := TYPE_GENERIC.

(** A Golden Config record of a device. [intended_last_success_date] is
    [None] when unset; [last_modified] is [None] when the attribute is
    missing (then [getattr] yields ['unknown']). *)
Record GoldenConfig : Type := mkGoldenConfig {
  intended_config : string;
  intended_last_success_date : option string;
  last_modified : option string
}.

(** ** The NAPALM driver *)

(** The calls the job makes on the driver object. *)
Inductive Call : Type :=
| Open
| LoadReplaceCandidate (config : string)
| LoadMergeCandidate (config : string)
| CompareConfig
| CommitConfig
| DiscardConfig
| GetFacts
| Close.

(** What a recorded call came back with. *)
Inductive Outcome : Type :=
| Returned
| ReturnedText (s : string)
| ReturnedFacts (f : Facts)
| Raised (e : Exn).

Definition Event : Type := (Call * Outcome)%type.

(** A driver instance is a state of type [D]; each method returns or
    raises and leaves the instance in a new state. *)
Record NetworkDriver (D : Type) : Type := mkDriver {
  drv_init : string -> string -> string -> PyVal -> Result D;
  drv_open : D -> Result unit * D;
  drv_load_replace_candidate : string -> D -> Result unit * D;
  drv_load_merge_candidate : string -> D -> Result unit * D;
  drv_compare_config : D -> Result string * D;
  drv_commit_config : D -> Result unit * D;
  drv_discard_config : D -> Result unit * D;
  drv_get_facts : D -> Result Facts * D;
  drv_close : D -> Result unit * D
}.

(** The object [driver(...)] builds: its class and the instance state. *)
Record DriverObj (D : Type) : Type := mkObj {
  obj_class : NetworkDriver D;
  obj_state : D
}.

(** Everything outside the job: [json.loads], NAPALM's
    [get_network_driver], the secret store behind
    [secrets_group.get_secret_value], and the Golden Config plugin (whether
    its model module imports, the record it holds for a device, and the
    [str] of the [ImportError] of its helper modules when they do not
    import). *)
Record Env (D : Type) : Type := mkEnv {
  json_loads : string -> Result PyVal;
  get_network_driver : string -> Result (NetworkDriver D);
  get_secret_value : SecretsGroup -> AccessType -> SecretType -> Device -> Result string;
  golden_config_models_importable : bool;
  golden_config_objects_get : Device -> option GoldenConfig;
  golden_config_helpers_import_error : option string
}.

(** ** Job state and the monad of the job *)

(** [napalm_device] is the local of [_deploy_config] that its handlers and
    [finally] clause test; [show_debug_attr] is [self._show_debug]
    ([false] while the attribute is unset, as [getattr(..., False)]
    reads it). *)
Record State (D : Type) : Type := mkState {
  napalm_device : option (DriverObj D);
  show_debug_attr : bool;
  calls : list Event;
  log : list LogEntry
}.

Definition init_state (D : Type) : State D :=
  {| napalm_device := None; show_debug_attr := false; calls := []; log := [] |}.

Definition M (D A : Type) : Type := State D -> Result A * State D.

Definition ret {D A} (a : A) : M D A := fun st => (Ok a, st).

Definition raise {D A} (e : Exn) : M D A := fun st => (Raise e, st).

Definition bind {D A B} (c : M D A) (k : A -> M D B) : M D B :=
  fun st =>
    match c st with
    | (Ok a, st') => k a st'
    | (Raise e, st') => (Raise e, st')
    end.

Notation "x <- c ;; k" := (bind c (fun x => k))
  (at level 61, c at next level, right associativity).
Notation "c ;; k" := (bind c (fun _ => k))
  (at level 61, right associativity).

(** [try: body except Exception as e: handler e]. The state reached when
    the exception was raised is the one the handler starts from. *)
Definition try_except {D A} (body : M D A) (handler : Exn -> M D A) : M D A :=
  fun st =>
    match body st with
    | (Ok a, st') => (Ok a, st')
    | (Raise e, st') => handler e st'
    end.

(** [try: body finally: cleanup]. The cleanup always runs; an exception
    leaving it replaces the body's outcome. *)
Definition try_finally {D A} (body : M D A) (cleanup : M D unit) : M D A :=
  fun st =>
    match body st with
    | (r, st') =>
        match cleanup st' with
        | (Ok _, st'') => (r, st'')
        | (Raise e, st'') => (Raise e, st'')
        end
    end.

Definition emit {D} (lvl : Level) (msg : string) : M D unit :=
  fun st =>
    (Ok tt, {| napalm_device := napalm_device st;
               show_debug_attr := show_debug_attr st;
               calls := calls st;
               log := log st ++ [(lvl, msg)] |}).

Definition logger_success {D} := @emit D SUCCESS.
Definition logger_warning {D} := @emit D WARNING.
Definition logger_error {D} := @emit D ERROR.

(** A message that reaches the log only when [enabled]. *)
Definition entry_when (enabled : bool) (lvl : Level) (msg : string) : list LogEntry :=
  if enabled then [(lvl, msg)] else [].

Definition emit_when {D} (enabled : bool) (lvl : Level) (msg : string) : M D unit :=
  fun st =>
    (Ok tt, {| napalm_device := napalm_device st;
               show_debug_attr := show_debug_attr st;
               calls := calls st;
               log := log st ++ entry_when enabled lvl msg |}).

(** [_log_info]: [logger.info] only if debug mode is enabled. *)
Definition _log_info {D} (message : string) : M D unit :=
  fun st => emit_when (show_debug_attr st) INFO message st.

(** [_log_debug]: [logger.debug] only if debug mode is enabled. *)
Definition _log_debug {D} (message : string) : M D unit :=
  fun st => emit_when (show_debug_attr st) DEBUG message st.

Definition set_show_debug {D} (b : bool) : M D unit :=
  fun st =>
    (Ok tt, {| napalm_device := napalm_device st;
               show_debug_attr := b;
               calls := calls st;
               log := log st |}).

Definition set_napalm_device {D} (d : option (DriverObj D)) : M D unit :=
  fun st =>
    (Ok tt, {| napalm_device := d;
               show_debug_attr := show_debug_attr st;
               calls := calls st;
               log := log st |}).

Definition get_napalm_device {D} : M D (option (DriverObj D)) :=
  fun st => (Ok (napalm_device st), st).

(** Lift a call that can raise but touches nothing of the job state. *)
Definition lift {D A} (r : Result A) : M D A := fun st => (r, st).

(** What Python raises for [None.attr]. *)
Definition attribute_error (attr : string) : Exn :=
  {| exn_kind := OtherException;
     exn_type_name := "AttributeError";
     exn_str := "'NoneType' object has no attribute '" ++ attr ++ "'";
     exn_traceback := "AttributeError: 'NoneType' object has no attribute '" ++ attr ++ "'" |}.

(** A method call on [napalm_device]: the driver method runs on the
    instance, the instance keeps the state the method left, and the call is
    recorded with its outcome. *)
Definition call_method {D A} (c : Call) (attr : string)
    (method : NetworkDriver D -> D -> Result A * D) (record : A -> Outcome) : M D A :=
  fun st =>
    match napalm_device st with
    | None => (Raise (attribute_error attr), st)
    | Some o =>
        let (r, d') := method (obj_class o) (obj_state o) in
        let out := match r with Ok a => record a | Raise e => Raised e end in
        (r, {| napalm_device := Some {| obj_class := obj_class o; obj_state := d' |};
               show_debug_attr := show_debug_attr st;
               calls := calls st ++ [(c, out)];
               log := log st |})
    end.

(** ** The job *)

Section ProvisionDevice.

Context {D : Type}.
Variable env : Env D.

Local Abbreviation J := (M D).

Definition napalm_open : J unit :=
  call_method Open "open" (@drv_open D) (fun _ => Returned).
Definition napalm_load_replace_candidate (config : string) : J unit :=
  call_method (LoadReplaceCandidate config) "load_replace_candidate"
    (fun c => drv_load_replace_candidate c config) (fun _ => Returned).
Definition napalm_load_merge_candidate (config : string) : J unit :=
  call_method (LoadMergeCandidate config) "load_merge_candidate"
    (fun c => drv_load_merge_candidate c config) (fun _ => Returned).
Definition napalm_compare_config : J string :=
  call_method CompareConfig "compare_config" (@drv_compare_config D) ReturnedText.
Definition napalm_commit_config : J unit :=
  call_method CommitConfig "commit_config" (@drv_commit_config D) (fun _ => Returned).
Definition napalm_discard_config : J unit :=
  call_method DiscardConfig "discard_config" (@drv_discard_config D) (fun _ => Returned).
Definition napalm_get_facts : J Facts :=
  call_method GetFacts "get_facts" (@drv_get_facts D) ReturnedFacts.
Definition napalm_close : J unit :=
  call_method Close "close" (@drv_close D) (fun _ => Returned).

(** [_validate_device]: the device has a platform, a NAPALM driver and a
    primary IPv4 address. *)
Definition _validate_device (device : Device) : J bool :=
  _log_info "Validating device configuration..." ;;
  match platform device with
  | None =>
      logger_error ("Device " ++ name device ++ " has no platform configured") ;;
      ret false
  | Some pf =>
      if negb (truthy (napalm_driver pf)) then
        logger_error ("Device " ++ name device ++ " platform '" ++ platform_name pf
                      ++ "' has no NAPALM driver configured") ;;
        ret false
      else
        match primary_ip4 device with
        | None =>
            logger_error ("Device " ++ name device ++ " has no primary IPv4 address") ;;
            ret false
        | Some _ =>
            logger_success "Device validation passed" ;;
            ret true
        end
  end.

(** One field of the credentials: the secret store is asked, and an
    exception or an empty answer falls back to ["admin"]. The boolean says
    whether the value came from the store. *)
Definition fetch_username (device : Device) (sg : SecretsGroup) : J (string * bool) :=
  try_except
    (username <- lift (get_secret_value env sg TYPE_GENERIC TYPE_USERNAME device) ;;
     if truthy username then
       logger_success ("✓ Retrieved username from secrets group: " ++ username) ;;
       ret (username, true)
     else
       _log_info "Username secret returned empty, using default" ;;
       ret ("admin", false))
    (fun e =>
       _log_debug ("Could not retrieve username: " ++ exn_type_name e ++ ": " ++ exn_str e) ;;
       _log_info "Could not retrieve username from secrets, using default" ;;
       ret ("admin", false)).

Definition fetch_password (device : Device) (sg : SecretsGroup) : J (string * bool) :=
  try_except
    (password <- lift (get_secret_value env sg TYPE_GENERIC TYPE_PASSWORD device) ;;
     if truthy password then
       logger_success "✓ Retrieved password from secrets group" ;;
       ret (password, true)
     else
       _log_info "Password secret returned empty, using default" ;;
       ret ("admin", false))
    (fun e =>
       _log_debug ("Could not retrieve password: " ++ exn_type_name e ++ ": " ++ exn_str e) ;;
       _log_info "Could not retrieve password from secrets, using default" ;;
       ret ("admin", false)).

Definition secrets_help : J unit :=
  _log_info "" ;;
  _log_info "To fix this, you have two options:" ;;
  _log_info "" ;;
  _log_info "Option 1: Set environment variables in Nautobot" ;;
  _log_info "  Add to docker-compose.yml or nautobot_config.py:" ;;
  _log_info "  NAUTOBOT_NAPALM_USERNAME=admin" ;;
  _log_info "  NAUTOBOT_NAPALM_PASSWORD=admin" ;;
  _log_info "" ;;
  _log_info "Option 2: Change secrets to use Text provider instead" ;;
  _log_info "  Secrets → Secrets → Edit each secret" ;;
  _log_info "  Change provider from 'environment-variable' to 'text-file' or other" ;;
  _log_info "" ;;
  _log_info "For this lab, default credentials (admin/admin) will work fine!" ;;
  _log_info "".

(** [_get_credentials]: credentials from the secrets group, or the
    defaults. *)
Definition _get_credentials (device : Device) : J (string * string) :=
  up <-
    match secrets_group device with
    | Some sg =>
        _log_info ("Secrets group configured: " ++ sg_name sg) ;;
        u <- fetch_username device sg ;;
        p <- fetch_password device sg ;;
        let '(username, username_from_secrets) := u in
        let '(password, password_from_secrets) := p in
        (if username_from_secrets || password_from_secrets then
           logger_success ("Using credentials from secrets group: " ++ sg_name sg)
         else
           logger_warning ("Secrets group '" ++ sg_name sg ++ "' is configured but "
                           ++ "secrets could not be retrieved. Using default credentials (admin/admin).") ;;
           secrets_help) ;;
        ret (username, password)
    | None =>
        _log_info ("No secrets group configured for this device. "
                   ++ "Using default credentials (admin/admin)") ;;
        _log_info "Tip: Assign a secrets group in the device settings for production use" ;;
        ret ("admin", "admin")
    end ;;
  let '(username, password) := up in
  (if String.eqb username "admin" && String.eqb password "admin" then
     _log_info "Using default credentials: admin/admin"
   else
     _log_info ("Using credentials from secrets: " ++ username ++ "/<hidden>")) ;;
  ret (username, password).

(** [_get_intended_config]: the stored intended configuration of the
    device, or [None]. *)
Definition _get_intended_config (device : Device) : J (option string) :=
  _log_info (str_mul "-" 80) ;;
  _log_info "Generating intended configuration from Golden Config..." ;;
  if negb (golden_config_models_importable env) then
    logger_error ("Golden Config plugin is not installed. "
                  ++ "Please install nautobot-golden-config plugin.") ;;
    ret None
  else
    found <-
      match golden_config_objects_get env device with
      | Some golden_config =>
          if truthy (intended_config golden_config) then
            let last_update :=
              match intended_last_success_date golden_config with
              | Some d => d
              | None =>
                  match last_modified golden_config with
                  | Some m => m
                  | None => "unknown"
                  end
              end in
            logger_success ("Found existing intended config "
                            ++ "(last updated: " ++ last_update ++ ")") ;;
            let config_preview :=
              join_lines (firstn 10 (split_lines (intended_config golden_config))) in
            _log_info ("Config preview:" ++ nl ++ config_preview ++ nl ++ "...") ;;
            ret (Some (intended_config golden_config))
          else
            logger_warning "Golden Config record exists but has no intended config" ;;
            ret None
      | None =>
          logger_warning ("No Golden Config record found for " ++ name device) ;;
          ret None
      end ;;
    match found with
    | Some config => ret (Some config)
    | None =>
        _log_info "Attempting to generate config using Golden Config plugin..." ;;
        match golden_config_helpers_import_error env with
        | None =>
            _log_info "Generating new intended configuration..." ;;
            logger_error "Please run the Golden Config 'Generate Intended Configurations' job first" ;;
            ret None
        | Some e =>
            logger_error ("Golden Config plugin not available or not properly configured: " ++ e) ;;
            ret None
        end
    end.

(** The body of the [try] statement of [_deploy_config]. *)
Definition deploy_body (device : Device) (device_ip driver_name : string)
    (optional_args : PyVal) (config username password : string)
    (dry_run replace commit : bool) : J unit :=
  driver <- lift (get_network_driver env driver_name) ;;
  d <- lift (drv_init driver device_ip username password optional_args) ;;
  set_napalm_device (Some {| obj_class := driver; obj_state := d |}) ;;
  _log_info ("Opening connection to " ++ device_ip ++ "...") ;;
  napalm_open ;;
  logger_success ("Connected to " ++ name device) ;;
  _log_info "Loading configuration to device..." ;;
  (if replace then
     logger_warning "REPLACE mode: Entire configuration will be replaced!" ;;
     napalm_load_replace_candidate config
   else
     _log_info "MERGE mode: Configuration will be merged with existing" ;;
     napalm_load_merge_candidate config) ;;
  logger_success "Configuration loaded successfully" ;;
  _log_info "Generating configuration diff..." ;;
  diff <- napalm_compare_config ;;
  if truthy diff then
    _log_info "Configuration changes:" ;;
    _log_info (str_mul "-" 80) ;;
    _log_info diff ;;
    _log_info (str_mul "-" 80) ;;
    if dry_run then
      logger_warning "DRY RUN mode: Discarding configuration changes" ;;
      napalm_discard_config ;;
      _log_info "To apply these changes, run again with 'Dry run mode' unchecked"
    else if commit then
      _log_info "Committing configuration changes..." ;;
      napalm_commit_config ;;
      logger_success "Configuration committed successfully and saved to startup-config" ;;
      _log_info "Verifying configuration..." ;;
      facts <- napalm_get_facts ;;
      logger_success ("Device " ++ fmt_opt (dict_get facts "hostname")
                      ++ " is running with new configuration")
    else
      logger_warning "Commit disabled: Changes loaded but not committed" ;;
      napalm_discard_config
  else
    _log_info "No configuration changes detected" ;;
    napalm_discard_config ;;
    ret tt.

(** The [except] clauses, in the order Python tries them. *)
Definition deploy_handlers (e : Exn) : J unit :=
  match exn_kind e with
  | ConnectionException =>
      logger_error ("Connection error: " ++ exn_str e) ;;
      logger_error ("Please verify:" ++ nl
                    ++ "  - Device is reachable" ++ nl
                    ++ "  - Credentials are correct" ++ nl
                    ++ "  - Management interface is configured" ++ nl
                    ++ "  - SSH/API is enabled on device")
  | CommitError | ReplaceConfigException =>
      logger_error ("Configuration deployment error: " ++ exn_str e) ;;
      logger_error "Configuration has been rolled back"
  | OtherException =>
      logger_error ("Unexpected error during deployment: " ++ exn_str e) ;;
      logger_error (exn_traceback e) ;;
      nd <- get_napalm_device ;;
      match nd with
      | Some _ =>
          try_except
            (_log_info "Attempting to discard configuration changes..." ;;
             napalm_discard_config ;;
             _log_info "Configuration changes discarded")
            (fun discard_error =>
               logger_error ("Could not discard config: " ++ exn_str discard_error))
      | None => ret tt
      end
  end.

(** The [finally] clause. *)
Definition deploy_finally : J unit :=
  nd <- get_napalm_device ;;
  match nd with
  | Some _ =>
      try_except
        (napalm_close ;;
         _log_info "Connection closed")
        (fun close_error =>
           logger_warning ("Error closing connection: " ++ exn_str close_error))
  | None => ret tt
  end.

(** [napalm_device = None] and the [try] statement with its three
    [except] clauses and its [finally] clause. *)
Definition deploy_try (device : Device) (device_ip driver_name : string)
    (optional_args : PyVal) (config username password : string)
    (dry_run replace commit : bool) : J unit :=
  set_napalm_device None ;;
  try_finally
    (try_except
       (deploy_body device device_ip driver_name optional_args config username password
          dry_run replace commit)
       deploy_handlers)
    deploy_finally.

(** "Parse NAPALM optional args": [napalm_args or {}], decoded with
    [json.loads] when it is a string. *)
Definition parse_optional_args (pf : Platform) : Result PyVal :=
  let optional_args :=
    if pyval_truthy (napalm_args pf) then napalm_args pf else VDict [] in
  match optional_args with
  | VStr s => json_loads env s
  | _ => Ok optional_args
  end.

(** [_deploy_config]: deploy configuration to the device using NAPALM. *)
Definition _deploy_config (device : Device) (config username password : string)
    (dry_run replace commit : bool) : J unit :=
  _log_info (str_mul "-" 80) ;;
  _log_info "Connecting to device and deploying configuration..." ;;
  device_ip <- lift (match primary_ip4 device with
                     | Some ip => Ok ip
                     | None => Raise (attribute_error "address")
                     end) ;;
  pf <- lift (match platform device with
              | Some pf => Ok pf
              | None => Raise (attribute_error "napalm_driver")
              end) ;;
  let driver_name := napalm_driver pf in
  _log_info ("Device IP: " ++ device_ip) ;;
  _log_info ("NAPALM Driver: " ++ driver_name) ;;
  _log_info ("Mode: " ++ (if dry_run then "DRY RUN" else "LIVE DEPLOYMENT")) ;;
  _log_info ("Method: " ++ (if replace then "REPLACE" else "MERGE")) ;;
  optional_args <- lift (parse_optional_args pf) ;;
  deploy_try device device_ip driver_name optional_args config username password
    dry_run replace commit.

(** [run]: the main execution method of the job. *)
Definition run (device : Device) (dry_run replace_config commit_changes show_debug : bool)
    : J unit :=
  set_show_debug show_debug ;;
  _log_info (str_mul "=" 80) ;;
  _log_info ("Starting provisioning for device: " ++ name device) ;;
  _log_info (str_mul "=" 80) ;;
  valid <- _validate_device device ;;
  if negb valid then ret tt
  else
    up <- _get_credentials device ;;
    let '(username, password) := up in
    intended <- _get_intended_config device ;;
    match intended with
    | None =>
        logger_error "No intended configuration available. Cannot proceed." ;;
        ret tt
    | Some intended_config =>
        if negb (truthy intended_config) then
          logger_error "No intended configuration available. Cannot proceed." ;;
          ret tt
        else
          _deploy_config device intended_config username password
            dry_run replace_config commit_changes ;;
          _log_info (str_mul "=" 80) ;;
          logger_success ("Provisioning completed for " ++ name device) ;;
          _log_info (str_mul "=" 80)
    end.

End ProvisionDevice.

(** ** Observations on one deployment attempt *)

Definition is_open (c : Call) : bool :=
  match c with Open => true | _ => false end.
Definition is_load (c : Call) : bool :=
  match c with LoadReplaceCandidate _ | LoadMergeCandidate _ => true | _ => false end.
Definition is_compare (c : Call) : bool :=
  match c with CompareConfig => true | _ => false end.
Definition is_commit (c : Call) : bool :=
  match c with CommitConfig => true | _ => false end.
Definition is_discard (c : Call) : bool :=
  match c with DiscardConfig => true | _ => false end.
Definition is_get_facts (c : Call) : bool :=
  match c with GetFacts => true | _ => false end.
Definition is_close (c : Call) : bool :=
  match c with Close => true | _ => false end.

(** How many recorded calls satisfy [p]. *)
Definition times (p : Call -> bool) (tr : list Event) : nat :=
  length (filter (fun ev => p (fst ev)) tr).

(** Whether the log has an entry of tier [lvl]. *)
Definition has_level (lvl : Level) (l : list LogEntry) : bool :=
  existsb (fun en => level_eqb (fst en) lvl) l.

(** [needle in haystack] on Python strings. *)
Fixpoint is_prefix (p s : string) : bool :=
  match p, s with
  | EmptyString, _ => true
  | String a p', String b s' => Ascii.eqb a b && is_prefix p' s'
  | String _ _, EmptyString => false
  end.

Fixpoint contains (needle haystack : string) : bool :=
  is_prefix needle haystack ||
  match haystack with
  | EmptyString => false
  | String _ h' => contains needle h'
  end.

(** One call of [_deploy_config] on a fresh job object whose
    [_show_debug] attribute is [show_debug]: the calls and the log are
    those of this attempt alone. *)
Definition attempt {D} (env : Env D) (device : Device)
    (config username password : string)
    (dry_run replace commit show_debug : bool) : Result unit * State D :=
  _deploy_config env device config username password dry_run replace commit
    {| napalm_device := None; show_debug_attr := show_debug; calls := []; log := [] |}.

(** What is observed of an attempt or of a job execution: whether it
    returned or raised to its caller, the driver calls it made, and the
    job log. *)
Definition result_of {D} (a : Result unit * State D) : Result unit := fst a.
Definition calls_of {D} (a : Result unit * State D) : list Event := calls (snd a).
Definition log_of {D} (a : Result unit * State D) : list LogEntry := log (snd a).

(** One call of [_get_credentials] on a fresh job object. *)
Definition resolve_credentials {D} (env : Env D) (device : Device) (show_debug : bool)
    : Result (string * string) * State D :=
  _get_credentials env device
    {| napalm_device := None; show_debug_attr := show_debug; calls := []; log := [] |}.

(** One execution of the job. *)
Definition run_job {D} (env : Env D) (device : Device)
    (dry_run replace_config commit_changes show_debug : bool) : Result unit * State D :=
  run env device dry_run replace_config commit_changes show_debug (init_state D).

(** ** A scripted driver *)

Module Fake.

(** What each driver method answers. [discard] answers its first call
    with [on_discard] and later ones with [on_discard_again]. *)
Record Script : Type := mkScript {
  on_init : Result unit;
  on_open : Result unit;
  on_load : Result unit;
  on_compare : Result string;
  on_commit : Result unit;
  on_discard : Result unit;
  on_discard_again : Result unit;
  on_get_facts : Result Facts;
  on_close : Result unit
}.

(** The instance state counts the [discard_config] calls so far. *)
Definition driver (s : Script) : NetworkDriver nat :=
  {| drv_init := fun _ _ _ _ =>
       match on_init s with Ok _ => Ok 0 | Raise e => Raise e end;
     drv_open := fun n => (on_open s, n);
     drv_load_replace_candidate := fun _ n => (on_load s, n);
     drv_load_merge_candidate := fun _ n => (on_load s, n);
     drv_compare_config := fun n => (on_compare s, n);
     drv_commit_config := fun n => (on_commit s, n);
     drv_discard_config := fun n =>
       (match n with O => on_discard s | S _ => on_discard_again s end, S n);
     drv_get_facts := fun n => (on_get_facts s, n);
     drv_close := fun n => (on_close s, n) |}.

Definition all_ok (diff : string) : Script :=
  {| on_init := Ok tt; on_open := Ok tt; on_load := Ok tt;
     on_compare := Ok diff; on_commit := Ok tt;
     on_discard := Ok tt; on_discard_again := Ok tt;
     on_get_facts := Ok [("hostname", "leaf1")];
     on_close := Ok tt |}.

Definition error (k : ExnKind) (cls msg : string) : Exn :=
  {| exn_kind := k; exn_type_name := cls; exn_str := msg;
     exn_traceback := "Traceback (most recent call last): " ++ cls ++ ": " ++ msg |}.

Definition refused : Exn :=
  error ConnectionException "ConnectionException" "Cannot connect to 10.0.0.1".

Definition rejected : Exn :=
  error CommitError "CommitError" "Error applying config: invalid input".

Definition timed_out : Exn :=
  error OtherException "TimeoutError" "timed out".

(** [open()] raises [ConnectionException]. *)
Definition open_refused : Script :=
  {| on_init := Ok tt; on_open := Raise refused; on_load := Ok tt;
     on_compare := Ok "+vlan 10"; on_commit := Ok tt;
     on_discard := Ok tt; on_discard_again := Ok tt;
     on_get_facts := Ok [("hostname", "leaf1")];
     on_close := Ok tt |}.

(** [commit_config()] raises [CommitError]. *)
Definition commit_rejected : Script :=
  {| on_init := Ok tt; on_open := Ok tt; on_load := Ok tt;
     on_compare := Ok "+vlan 10"; on_commit := Raise rejected;
     on_discard := Ok tt; on_discard_again := Ok tt;
     on_get_facts := Ok [("hostname", "leaf1")];
     on_close := Ok tt |}.

(** The commit goes through and [get_facts()] then times out. *)
Definition facts_time_out : Script :=
  {| on_init := Ok tt; on_open := Ok tt; on_load := Ok tt;
     on_compare := Ok "+vlan 10"; on_commit := Ok tt;
     on_discard := Ok tt; on_discard_again := Ok tt;
     on_get_facts := Raise timed_out;
     on_close := Ok tt |}.

(** The first [discard_config()] times out, a second one goes through. *)
Definition discard_times_out : Script :=
  {| on_init := Ok tt; on_open := Ok tt; on_load := Ok tt;
     on_compare := Ok "+vlan 10"; on_commit := Ok tt;
     on_discard := Raise timed_out; on_discard_again := Ok tt;
     on_get_facts := Ok [("hostname", "leaf1")];
     on_close := Ok tt |}.

(** [json.loads] on the two strings the examples use: ["{}"] decodes to
    the empty dictionary and ["{"] is not JSON. *)
Definition loads (s : string) : Result PyVal :=
  if String.eqb s "{}" then Ok (VDict [])
  else Raise (error OtherException "JSONDecodeError"
                "Expecting property name enclosed in double quotes: line 1 column 2 (char 1)").

Definition secrets_unavailable
    (_ : SecretsGroup) (_ : AccessType) (_ : SecretType) (_ : Device) : Result string :=
  Raise (error OtherException "DoesNotExist"
           "SecretsGroupAssociation matching query does not exist.").

(** A secret store that holds the username ["netops"] and raises for every
    other secret. *)
Definition secrets_username_only
    (_ : SecretsGroup) (_ : AccessType) (t : SecretType) (_ : Device) : Result string :=
  match t with
  | TYPE_USERNAME => Ok "netops"
  | TYPE_PASSWORD =>
      Raise (error OtherException "SecretProviderError"
               "Undefined environment variable NAPALM_PASSWORD")
  end.

Definition env_with
    (secrets : SecretsGroup -> AccessType -> SecretType -> Device -> Result string)
    (s : Script) (stored : option GoldenConfig) : Env nat :=
  {| json_loads := loads;
     get_network_driver := fun _ => Ok (driver s);
     get_secret_value := secrets;
     golden_config_models_importable := true;
     golden_config_objects_get := fun _ => stored;
     golden_config_helpers_import_error := None |}.

Definition env (s : Script) (stored : option GoldenConfig) : Env nat :=
  env_with secrets_unavailable s stored.

Definition eos : Platform :=
  {| platform_name := "Arista EOS"; napalm_driver := "eos"; napalm_args := VNone |}.

Definition leaf1 : Device :=
  {| name := "leaf1"; platform := Some eos; primary_ip4 := Some "10.0.0.1";
     secrets_group := None |}.

(** [leaf1] with a secrets group assigned. *)
Definition leaf1_with_secrets : Device :=
  {| name := "leaf1"; platform := Some eos; primary_ip4 := Some "10.0.0.1";
     secrets_group := Some {| sg_name := "lab-credentials" |} |}.

(** [leaf1] on a platform whose [napalm_args] is the string [args]. *)
Definition leaf1_with_args (args : string) : Device :=
  {| name := "leaf1";
     platform := Some {| platform_name := "Arista EOS"; napalm_driver := "eos";
                         napalm_args := VStr args |};
     primary_ip4 := Some "10.0.0.1";
     secrets_group := None |}.

Definition intended (cfg : string) : option GoldenConfig :=
  Some {| intended_config := cfg;
          intended_last_success_date := Some "2024-01-01";
          last_modified := None |}.

End Fake.


(** ** Further observations *)

(** The calls the handlers and the [finally] clause make. *)
Definition is_cleanup (c : Call) : bool := is_discard c || is_close c.

(** Whether, after the first call that raised, a recording holds cleanup
    calls only. *)
Fixpoint stops_at_failure (tr : list Event) : bool :=
  match tr with
  | [] => true
  | (_, Raised _) :: rest => forallb (fun ev => is_cleanup (fst ev)) rest
  | _ :: rest => stops_at_failure rest
  end.

(** One call of [_validate_device] on a fresh job object. *)
Definition check_device {D} (device : Device) (show_debug : bool)
    : Result bool * State D :=
  _validate_device device
    {| napalm_device := None; show_debug_attr := show_debug; calls := []; log := [] |}.

(** One call of [_get_intended_config] on a fresh job object. *)
Definition lookup_intended_config {D} (env : Env D) (device : Device) (show_debug : bool)
    : Result (option string) * State D :=
  _get_intended_config env device
    {| napalm_device := None; show_debug_attr := show_debug; calls := []; log := [] |}.

(** The text [_get_intended_config] shows of a configuration:
    ["\n".join(config.split("\n")[:10])]. *)
Definition config_preview (config : string) : string :=
  join_lines (firstn 10 (split_lines config)).

(** What a secret lookup contributes to the credentials: its text, when it
    returned one that is not empty. *)
Definition from_store (r : Result string) : option string :=
  match r with
  | Ok s => if truthy s then Some s else None
  | Raise _ => None
  end.

(** A secret store that holds the username ["netops"] and the password
    [password]. *)
Definition secrets_with_password (password : string)
    (_ : SecretsGroup) (_ : AccessType) (t : SecretType) (_ : Device) : Result string :=
  match t with
  | TYPE_USERNAME => Ok "netops"
  | TYPE_PASSWORD => Ok password
  end.

(** [close()] raises, everything before it goes through. *)
Definition close_fails : Fake.Script :=
  {| Fake.on_init := Ok tt; Fake.on_open := Ok tt; Fake.on_load := Ok tt;
     Fake.on_compare := Ok "+vlan 10"; Fake.on_commit := Ok tt;
     Fake.on_discard := Ok tt; Fake.on_discard_again := Ok tt;
     Fake.on_get_facts := Ok [("hostname", "leaf1")];
     Fake.on_close := Raise Fake.timed_out |}.

(** NAPALM has no driver of the requested name. *)
Definition env_without_driver : Env nat :=
  {| json_loads := Fake.loads;
     get_network_driver := fun _ =>
       Raise (Fake.error OtherException "ModuleImportError"
                "Cannot import eos. Is the library installed?");
     get_secret_value := Fake.secrets_unavailable;
     golden_config_models_importable := true;
     golden_config_objects_get := fun _ => None;
     golden_config_helpers_import_error := None |}.



(** A device that has an address but no platform. *)
Definition leaf_without_platform : Device :=
  {| name := "leaf9"; platform := None; primary_ip4 := Some "10.0.0.9";
     secrets_group := None |}.

Unset Implicit Arguments.

(** ** Symbolic execution of one attempt *)

(** String literals are named before the job is evaluated, so that the
    case analysis works on small terms. *)
Ltac hide_strings :=
  repeat match goal with
  | |- context [String ?a ?s] =>
      let m := fresh "msg" in set (m := String a s) in *
  end.

Ltac expose :=
  unfold result_of, calls_of, log_of, attempt, _deploy_config, deploy_try, deploy_body,
    deploy_handlers, deploy_finally, attribute_error.

Ltac run_job_tree :=
  cbv beta iota zeta delta
    [_deploy_config deploy_try deploy_body deploy_handlers deploy_finally
     napalm_open napalm_load_replace_candidate napalm_load_merge_candidate
     napalm_compare_config napalm_commit_config napalm_discard_config
     napalm_get_facts napalm_close call_method
     try_finally try_except bind ret lift
     _log_info _log_debug emit_when logger_success logger_warning logger_error emit
     set_napalm_device get_napalm_device
     napalm_device show_debug_attr calls log obj_class obj_state fst snd].

(** Split on the innermost call outcome or flag the evaluation is stuck
    on. *)
Ltac split_case :=
  match goal with
  | |- context [match ?x with _ => _ end] =>
      lazymatch x with
      | context [match _ with _ => _ end] => fail
      | _ => destruct x eqn:?
      end
  end.

(** All paths of the attempt named in the goal: the attempt is replaced
    by the result and final state of each path. *)
Ltac all_paths :=
  match goal with
  | |- context [attempt ?env ?dev ?cfg ?u ?p ?dry ?rep ?com ?dbg] =>
      let a := fresh "a" in
      let E := fresh "E" in
      let Q := fresh "Q" in
      remember (attempt env dev cfg u p dry rep com dbg) as a eqn:E;
      match goal with |- ?G => set (Q := G) end;
      revert E; expose; hide_strings; run_job_tree;
      repeat (split_case; cbv beta iota);
      intros E; subst Q; subst a; unfold result_of, calls_of, log_of;
      cbv beta iota delta [fst snd calls log]
  end.

(** Use a hypothesis [In ev calls] on an explicit list of calls. *)
Ltac use_in H :=
  simpl in H;
  repeat (destruct H as [H | H];
          [ first [ discriminate H | inversion H; subst; clear H ] | ]);
  try contradiction.

Ltac in_list := simpl; repeat first [ left; reflexivity | right ]; fail.

Ltac show_strings :=
  repeat match goal with m := _ : string |- _ => subst m end.

Ltac not_in_list :=
  let H := fresh in
  intro H; simpl in H;
  repeat (destruct H as [H | H];
          [ first [ discriminate H | exfalso; clear - H; show_strings; discriminate H ] | ]);
  exact H.


(** The same for the parts of the job around the attempt. *)
Ltac run_prelude_tree :=
  cbv beta iota zeta delta
    [run_job run resolve_credentials init_state
     _validate_device _get_credentials fetch_username fetch_password secrets_help
     _get_intended_config
     try_finally try_except bind ret lift
     _log_info _log_debug emit_when logger_success logger_warning logger_error emit
     set_show_debug
     napalm_device show_debug_attr calls log fst snd negb orb].

Ltac in_app := repeat rewrite in_app_iff; simpl; tauto.


(** ** The connection and its release *)

(** C1 as the code has it. When [open()] raises a [ConnectionException],
    the attempt returns to its caller, reports "Connection error: ..." at
    error tier and never reports a connection (no success entry); the only
    calls on the driver are the failed [open()] and one [close()], which the
    [finally] clause makes because the driver object exists. *)
Theorem failed_open_is_reported_and_closed D (env : Env D) device config username password
    dry_run replace commit show_debug e :
  In (Open, Raised e) (calls_of
    (attempt env device config username password dry_run replace commit show_debug)) ->
  exn_kind e = ConnectionException ->
  result_of (attempt env device config username password dry_run replace commit show_debug)
    = Ok tt
  /\ (exists o,
        calls_of (attempt env device config username password dry_run replace commit
                    show_debug) = [(Open, Raised e); (Close, o)])
  /\ In (ERROR, ("Connection error: " ++ exn_str e)%string)
        (log_of (attempt env device config username password dry_run replace commit
                   show_debug))
  /\ has_level SUCCESS
        (log_of (attempt env device config username password dry_run replace commit
                   show_debug)) = false.
Proof.
  unfold has_level.
  all_paths.
  all: intros Hopen Hkind; use_in Hopen.
  all: try congruence.
  all: destruct show_debug; unfold entry_when; (split; [reflexivity | split; [eexists; reflexivity | split; [in_list | reflexivity]]]).
Qed.


(** An attempt whose [open()] is refused: the hypotheses of
    [failed_open_is_reported_and_closed] hold and its conclusion follows. *)
Lemma failed_open_is_reported_and_closed_witness :
  In (Open, Raised Fake.refused)
     (calls_of (attempt (Fake.env Fake.open_refused None) Fake.leaf1
                  "vlan 10" "admin" "admin" true false true false))
  /\ exn_kind Fake.refused = ConnectionException
  /\ (result_of (attempt (Fake.env Fake.open_refused None) Fake.leaf1
                   "vlan 10" "admin" "admin" true false true false) = Ok tt
      /\ (exists o,
            calls_of (attempt (Fake.env Fake.open_refused None) Fake.leaf1
                        "vlan 10" "admin" "admin" true false true false)
            = [(Open, Raised Fake.refused); (Close, o)])
      /\ In (ERROR, ("Connection error: " ++ exn_str Fake.refused)%string)
            (log_of (attempt (Fake.env Fake.open_refused None) Fake.leaf1
                       "vlan 10" "admin" "admin" true false true false))
      /\ has_level SUCCESS
            (log_of (attempt (Fake.env Fake.open_refused None) Fake.leaf1
                       "vlan 10" "admin" "admin" true false true false)) = false).
Proof.
  assert (H1 : In (Open, Raised Fake.refused)
                 (calls_of (attempt (Fake.env Fake.open_refused None) Fake.leaf1
                              "vlan 10" "admin" "admin" true false true false)))
    by (vm_compute; left; reflexivity).
  assert (H2 : exn_kind Fake.refused = ConnectionException) by reflexivity.
  split; [exact H1 | split; [exact H2 |]].
  exact (failed_open_is_reported_and_closed nat (Fake.env Fake.open_refused None) Fake.leaf1
           "vlan 10" "admin" "admin" true false true false Fake.refused H1 H2).
Defined.

(** C1 as stated fails: with [open()] refused, [close()] is called. *)
Lemma close_is_called_after_failed_open :
  exn_kind Fake.refused = ConnectionException
  /\ calls_of (attempt (Fake.env Fake.open_refused None) Fake.leaf1
                 "vlan 10" "admin" "admin" true false true false)
     = [(Open, Raised Fake.refused); (Close, Returned)]
  /\ times is_close
       (calls_of (attempt (Fake.env Fake.open_refused None) Fake.leaf1
                    "vlan 10" "admin" "admin" true false true false)) <> 0.
Proof.
  split; [reflexivity | split; [vm_compute; reflexivity | vm_compute; discriminate]].
Qed.

(** C2. Every attempt that calls [open()] calls [close()] exactly once,
    as its last call on the driver, whatever the flags are and whatever
    each driver call returns or raises. *)
Theorem close_exactly_once D (env : Env D) device config username password
    dry_run replace commit show_debug :
  In Open (map fst (calls_of
    (attempt env device config username password dry_run replace commit show_debug))) ->
  times is_close (calls_of
    (attempt env device config username password dry_run replace commit show_debug)) = 1
  /\ exists before o,
       calls_of (attempt env device config username password dry_run replace commit
                   show_debug) = before ++ [(Close, o)].
Proof.
  unfold times.
  all_paths.
  all: intros Hopen; use_in Hopen.
  all: split; [reflexivity | eexists; eexists; reflexivity].
Qed.


Lemma close_exactly_once_witness :
  In Open (map fst (calls_of
    (attempt (Fake.env Fake.commit_rejected None) Fake.leaf1
       "vlan 10" "admin" "admin" false false true false)))
  /\ (times is_close (calls_of
        (attempt (Fake.env Fake.commit_rejected None) Fake.leaf1
           "vlan 10" "admin" "admin" false false true false)) = 1
      /\ exists before o,
           calls_of (attempt (Fake.env Fake.commit_rejected None) Fake.leaf1
                       "vlan 10" "admin" "admin" false false true false)
           = before ++ [(Close, o)]).
Proof.
  assert (H1 : In Open (map fst (calls_of
                 (attempt (Fake.env Fake.commit_rejected None) Fake.leaf1
                    "vlan 10" "admin" "admin" false false true false))))
    by (vm_compute; left; reflexivity).
  split; [exact H1 |].
  exact (close_exactly_once nat (Fake.env Fake.commit_rejected None) Fake.leaf1
           "vlan 10" "admin" "admin" false false true false H1).
Defined.

(** ** The decision after the diff *)

(** With [dry_run] set, [commit_config()] is never called, whatever
    [commit] says. When [compare_config()] returned a non-empty diff,
    [discard_config()] is called and the warning "DRY RUN mode: Discarding
    configuration changes" is logged; with [show_debug] set the diff text
    is an info-tier entry of the log. *)
Theorem dry_run_discards D (env : Env D) device config username password
    replace commit show_debug :
  times is_commit
    (calls_of (attempt env device config username password true replace commit
                 show_debug)) = 0
  /\ forall diff,
       In (CompareConfig, ReturnedText diff)
          (calls_of (attempt env device config username password true replace commit
                       show_debug)) ->
       diff <> "" ->
       In DiscardConfig
          (map fst (calls_of (attempt env device config username password true replace
                                commit show_debug)))
       /\ In (WARNING, "DRY RUN mode: Discarding configuration changes")
             (log_of (attempt env device config username password true replace commit
                        show_debug))
       /\ (show_debug = true ->
           In (INFO, diff)
              (log_of (attempt env device config username password true replace commit
                         show_debug))).
Proof.
  unfold times.
  all_paths.
  all: split; [reflexivity |].
  all: intros diff Hdiff Hne; use_in Hdiff.
  all: try (exfalso; match goal with H : truthy ?d = false |- _ =>
                       destruct d; [congruence | discriminate H] end).
  all: destruct show_debug; unfold entry_when.
  all: (split; [in_list |]); (split; [in_list |]);
       intros; first [in_list | discriminate].
Qed.


Lemma dry_run_discards_witness :
  In (CompareConfig, ReturnedText "+vlan 10")
     (calls_of (attempt (Fake.env (Fake.all_ok "+vlan 10") None) Fake.leaf1
                  "vlan 10" "admin" "admin" true false true true))
  /\ "+vlan 10" <> ""
  /\ In (INFO, "+vlan 10")
        (log_of (attempt (Fake.env (Fake.all_ok "+vlan 10") None) Fake.leaf1
                   "vlan 10" "admin" "admin" true false true true)).
Proof.
  assert (H1 : In (CompareConfig, ReturnedText "+vlan 10")
                 (calls_of (attempt (Fake.env (Fake.all_ok "+vlan 10") None) Fake.leaf1
                              "vlan 10" "admin" "admin" true false true true)))
    by (vm_compute; right; right; left; reflexivity).
  assert (H2 : "+vlan 10" <> "") by discriminate.
  split; [exact H1 | split; [exact H2 |]].
  exact (proj2 (proj2
           (proj2 (dry_run_discards nat (Fake.env (Fake.all_ok "+vlan 10") None)
                     Fake.leaf1 "vlan 10" "admin" "admin" false true true)
              "+vlan 10" H1 H2)) eq_refl).
Defined.

(** C3, on the input where the code falls short of it. A dry run with the
    job's default [show_debug = False], on a driver whose
    [compare_config()] returns the diff "+vlan 10": the candidate is
    discarded without a commit and the dry run is announced, but no entry
    of the log carries the diff text, which [_log_info] dropped. *)
Lemma dry_run_diff_absent_from_log :
  calls_of (attempt (Fake.env (Fake.all_ok "+vlan 10") None) Fake.leaf1
              "vlan 10" "admin" "admin" true false true false)
  = [(Open, Returned); (LoadMergeCandidate "vlan 10", Returned);
     (CompareConfig, ReturnedText "+vlan 10"); (DiscardConfig, Returned);
     (Close, Returned)]
  /\ log_of (attempt (Fake.env (Fake.all_ok "+vlan 10") None) Fake.leaf1
               "vlan 10" "admin" "admin" true false true false)
     = [(SUCCESS, "Connected to leaf1");
        (SUCCESS, "Configuration loaded successfully");
        (WARNING, "DRY RUN mode: Discarding configuration changes")]
  /\ existsb (fun en => contains "+vlan 10" (snd en))
       (log_of (attempt (Fake.env (Fake.all_ok "+vlan 10") None) Fake.leaf1
                  "vlan 10" "admin" "admin" true false true false)) = false.
Proof.
  repeat split; vm_compute; reflexivity.
Qed.





(** C5 as the code has it. With [dry_run] unset, [commit] set and a
    non-empty diff, [commit_config()] is called exactly once. When it
    returns, "Configuration committed successfully and saved to
    startup-config" is logged. When it raises, the attempt still returns
    to its caller, closes once and logs the error text at error tier under
    the heading of the exception's class; for [CommitError] and
    [ReplaceConfigException] it also logs "Configuration has been rolled
    back", with nothing asked of the driver. *)
Theorem live_commit_once_and_reported D (env : Env D) device config username password
    replace show_debug diff :
  In (CompareConfig, ReturnedText diff)
     (calls_of (attempt env device config username password false replace true
                  show_debug)) ->
  diff <> "" ->
  times is_commit
    (calls_of (attempt env device config username password false replace true
                 show_debug)) = 1
  /\ (In (CommitConfig, Returned)
         (calls_of (attempt env device config username password false replace true
                      show_debug)) ->
      In (SUCCESS, "Configuration committed successfully and saved to startup-config")
         (log_of (attempt env device config username password false replace true
                    show_debug)))
  /\ forall e,
       In (CommitConfig, Raised e)
          (calls_of (attempt env device config username password false replace true
                       show_debug)) ->
       result_of (attempt env device config username password false replace true
                    show_debug) = Ok tt
       /\ times is_close
            (calls_of (attempt env device config username password false replace true
                         show_debug)) = 1
       /\ has_level ERROR
            (log_of (attempt env device config username password false replace true
                       show_debug)) = true
       /\ match exn_kind e with
          | ConnectionException =>
              In (ERROR, ("Connection error: " ++ exn_str e)%string)
                 (log_of (attempt env device config username password false replace true
                            show_debug))
          | CommitError | ReplaceConfigException =>
              In (ERROR, ("Configuration deployment error: " ++ exn_str e)%string)
                 (log_of (attempt env device config username password false replace true
                            show_debug))
              /\ In (ERROR, "Configuration has been rolled back")
                    (log_of (attempt env device config username password false replace
                               true show_debug))
          | OtherException =>
              In (ERROR, ("Unexpected error during deployment: " ++ exn_str e)%string)
                 (log_of (attempt env device config username password false replace true
                            show_debug))
          end.
Proof.
  unfold times, has_level.
  all_paths.
  all: intros Hdiff Hne; use_in Hdiff.
  all: try (exfalso; match goal with H : truthy ?d = false |- _ =>
                       destruct d; [congruence | discriminate H] end).
  all: destruct show_debug; unfold entry_when.
  all: split; [reflexivity |].
  all: split; [intros Hc; first [in_list | use_in Hc] |].
  all: intros e' Hc; use_in Hc.
  all: (split; [reflexivity |]); (split; [reflexivity |]); (split; [reflexivity |]).
  all: match goal with H : exn_kind _ = _ |- _ => rewrite H end.
  all: first [in_list | split; in_list].
Qed.


Lemma live_commit_once_and_reported_witness :
  In (CompareConfig, ReturnedText "+vlan 10")
     (calls_of (attempt (Fake.env Fake.commit_rejected None) Fake.leaf1
                  "vlan 10" "admin" "admin" false false true false))
  /\ "+vlan 10" <> ""
  /\ times is_commit
       (calls_of (attempt (Fake.env Fake.commit_rejected None) Fake.leaf1
                    "vlan 10" "admin" "admin" false false true false)) = 1.
Proof.
  assert (H1 : In (CompareConfig, ReturnedText "+vlan 10")
                 (calls_of (attempt (Fake.env Fake.commit_rejected None) Fake.leaf1
                              "vlan 10" "admin" "admin" false false true false)))
    by (vm_compute; right; right; left; reflexivity).
  assert (H2 : "+vlan 10" <> "") by discriminate.
  split; [exact H1 | split; [exact H2 |]].
  exact (proj1 (live_commit_once_and_reported nat (Fake.env Fake.commit_rejected None)
           Fake.leaf1 "vlan 10" "admin" "admin" false false "+vlan 10" H1 H2)).
Defined.

(** C5 as stated fails: a commit that raises [CommitError] is reported as
    rolled back, although the driver signalled nothing but the error. *)
Lemma commit_failure_is_announced_as_rollback :
  exn_kind Fake.rejected = CommitError
  /\ calls_of (attempt (Fake.env Fake.commit_rejected None) Fake.leaf1
                 "vlan 10" "admin" "admin" false false true false)
     = [(Open, Returned); (LoadMergeCandidate "vlan 10", Returned);
        (CompareConfig, ReturnedText "+vlan 10"); (CommitConfig, Raised Fake.rejected);
        (Close, Returned)]
  /\ log_of (attempt (Fake.env Fake.commit_rejected None) Fake.leaf1
               "vlan 10" "admin" "admin" false false true false)
     = [(SUCCESS, "Connected to leaf1");
        (SUCCESS, "Configuration loaded successfully");
        (ERROR, "Configuration deployment error: Error applying config: invalid input");
        (ERROR, "Configuration has been rolled back")].
Proof.
  repeat split; vm_compute; reflexivity.
Qed.

(** ** Failures after the decision *)

(** C6 as the code has it. When [commit_config()] returned and
    [get_facts()] then raises, the attempt returns to its caller and
    closes once; the commit's success entry stays in the log and the
    failure is logged at error tier under the heading of its class: as a
    connection error, as a deployment error followed by "Configuration has
    been rolled back", or, outside the NAPALM classes, as an unexpected
    error after which [discard_config()] is called before [close()]. *)
Theorem facts_failure_after_commit D (env : Env D) device config username password
    dry_run replace commit show_debug e :
  In (CommitConfig, Returned)
     (calls_of (attempt env device config username password dry_run replace commit
                  show_debug)) ->
  In (GetFacts, Raised e)
     (calls_of (attempt env device config username password dry_run replace commit
                  show_debug)) ->
  result_of (attempt env device config username password dry_run replace commit show_debug)
    = Ok tt
  /\ In (SUCCESS, "Configuration committed successfully and saved to startup-config")
        (log_of (attempt env device config username password dry_run replace commit
                   show_debug))
  /\ has_level ERROR
       (log_of (attempt env device config username password dry_run replace commit
                  show_debug)) = true
  /\ times is_close
       (calls_of (attempt env device config username password dry_run replace commit
                    show_debug)) = 1
  /\ match exn_kind e with
     | ConnectionException =>
         times is_discard
           (calls_of (attempt env device config username password dry_run replace commit
                        show_debug)) = 0
         /\ In (ERROR, ("Connection error: " ++ exn_str e)%string)
               (log_of (attempt env device config username password dry_run replace commit
                          show_debug))
     | CommitError | ReplaceConfigException =>
         times is_discard
           (calls_of (attempt env device config username password dry_run replace commit
                        show_debug)) = 0
         /\ In (ERROR, ("Configuration deployment error: " ++ exn_str e)%string)
               (log_of (attempt env device config username password dry_run replace commit
                          show_debug))
         /\ In (ERROR, "Configuration has been rolled back")
               (log_of (attempt env device config username password dry_run replace commit
                          show_debug))
     | OtherException =>
         map fst (calls_of (attempt env device config username password dry_run replace
                              commit show_debug))
         = [Open;
            if replace then LoadReplaceCandidate config else LoadMergeCandidate config;
            CompareConfig; CommitConfig; GetFacts; DiscardConfig; Close]
         /\ In (ERROR, ("Unexpected error during deployment: " ++ exn_str e)%string)
               (log_of (attempt env device config username password dry_run replace commit
                          show_debug))
     end.
Proof.
  unfold times, has_level.
  all_paths.
  all: intros Hc Hf; use_in Hc; use_in Hf.
  all: destruct show_debug; unfold entry_when.
  all: (split; [reflexivity |]); (split; [in_list |]); (split; [reflexivity |]);
       (split; [reflexivity |]).
  all: match goal with H : exn_kind _ = _ |- _ => rewrite H end.
  all: split; [reflexivity | first [in_list | split; in_list]].
Qed.


Lemma facts_failure_after_commit_witness :
  In (CommitConfig, Returned)
     (calls_of (attempt (Fake.env Fake.facts_time_out None) Fake.leaf1
                  "vlan 10" "admin" "admin" false false true false))
  /\ In (GetFacts, Raised Fake.timed_out)
        (calls_of (attempt (Fake.env Fake.facts_time_out None) Fake.leaf1
                     "vlan 10" "admin" "admin" false false true false))
  /\ result_of (attempt (Fake.env Fake.facts_time_out None) Fake.leaf1
                  "vlan 10" "admin" "admin" false false true false) = Ok tt.
Proof.
  assert (H1 : In (CommitConfig, Returned)
                 (calls_of (attempt (Fake.env Fake.facts_time_out None) Fake.leaf1
                              "vlan 10" "admin" "admin" false false true false)))
    by (vm_compute; right; right; right; left; reflexivity).
  assert (H2 : In (GetFacts, Raised Fake.timed_out)
                 (calls_of (attempt (Fake.env Fake.facts_time_out None) Fake.leaf1
                              "vlan 10" "admin" "admin" false false true false)))
    by (vm_compute; right; right; right; right; left; reflexivity).
  split; [exact H1 | split; [exact H2 |]].
  exact (proj1 (facts_failure_after_commit nat (Fake.env Fake.facts_time_out None)
           Fake.leaf1 "vlan 10" "admin" "admin" false false true false Fake.timed_out
           H1 H2)).
Defined.

(** C6 as stated fails: after a commit that went through, a [get_facts()]
    that times out is logged at error tier (no warning is logged) and
    [discard_config()] is called. *)
Lemma facts_failure_is_an_error_and_discards :
  calls_of (attempt (Fake.env Fake.facts_time_out None) Fake.leaf1
              "vlan 10" "admin" "admin" false false true false)
  = [(Open, Returned); (LoadMergeCandidate "vlan 10", Returned);
     (CompareConfig, ReturnedText "+vlan 10"); (CommitConfig, Returned);
     (GetFacts, Raised Fake.timed_out); (DiscardConfig, Returned); (Close, Returned)]
  /\ log_of (attempt (Fake.env Fake.facts_time_out None) Fake.leaf1
               "vlan 10" "admin" "admin" false false true false)
     = [(SUCCESS, "Connected to leaf1");
        (SUCCESS, "Configuration loaded successfully");
        (SUCCESS, "Configuration committed successfully and saved to startup-config");
        (ERROR, "Unexpected error during deployment: timed out");
        (ERROR, "Traceback (most recent call last): TimeoutError: timed out")]
  /\ has_level WARNING
       (log_of (attempt (Fake.env Fake.facts_time_out None) Fake.leaf1
                  "vlan 10" "admin" "admin" false false true false)) = false
  /\ times is_discard
       (calls_of (attempt (Fake.env Fake.facts_time_out None) Fake.leaf1
                    "vlan 10" "admin" "admin" false false true false)) <> 0.
Proof.
  repeat split; vm_compute; first [reflexivity | discriminate].
Qed.





(** ** Credentials *)

(** C8. When the device has a secrets group whose username secret is a
    non-empty text and whose password secret raises, [_get_credentials]
    returns that username with the default password ["admin"], and
    announces "Using credentials from secrets group: ..." at success tier
    without any warning. *)
Theorem username_from_store_password_default D (env : Env D) device sg username e
    show_debug :
  secrets_group device = Some sg ->
  get_secret_value env sg TYPE_GENERIC TYPE_USERNAME device = Ok username ->
  username <> "" ->
  get_secret_value env sg TYPE_GENERIC TYPE_PASSWORD device = Raise e ->
  fst (resolve_credentials env device show_debug) = Ok (username, "admin")
  /\ In (SUCCESS, ("Using credentials from secrets group: " ++ sg_name sg)%string)
        (log (snd (resolve_credentials env device show_debug)))
  /\ has_level WARNING (log (snd (resolve_credentials env device show_debug))) = false.
Proof.
  intros Hsg Huser Hne Hpass.
  unfold has_level.
  run_prelude_tree.
  rewrite Hsg. cbv beta iota.
  rewrite Huser, Hpass.
  destruct username as [| c rest]; [congruence |].
  cbv beta iota delta [truthy].
  destruct (String.eqb (String c rest) "admin" && String.eqb "admin" "admin")%bool;
    destruct show_debug; unfold entry_when;
    (split; [reflexivity | split; [in_list | reflexivity]]).
Qed.


Lemma username_from_store_password_default_witness :
  secrets_group Fake.leaf1_with_secrets = Some {| sg_name := "lab-credentials" |}
  /\ "netops" <> ""
  /\ fst (resolve_credentials
            (Fake.env_with Fake.secrets_username_only (Fake.all_ok "+vlan 10") None)
            Fake.leaf1_with_secrets false) = Ok ("netops", "admin").
Proof.
  assert (H1 : secrets_group Fake.leaf1_with_secrets
               = Some {| sg_name := "lab-credentials" |}) by reflexivity.
  assert (H2 : "netops" <> "") by discriminate.
  split; [exact H1 | split; [exact H2 |]].
  exact (proj1 (username_from_store_password_default nat
           (Fake.env_with Fake.secrets_username_only (Fake.all_ok "+vlan 10") None)
           Fake.leaf1_with_secrets {| sg_name := "lab-credentials" |} "netops"
           (Fake.error OtherException "SecretProviderError"
              "Undefined environment variable NAPALM_PASSWORD")
           false H1 eq_refl H2 eq_refl)).
Defined.

(** ** The job around the attempt *)

(** C9. When the Golden Config plugin is missing, holds no record for
    the device, or holds a record whose intended configuration is empty,
    the job makes no call on any driver and returns without the
    "Provisioning completed" entry; for a device that passes validation
    the last entry of its log is the error "No intended configuration
    available. Cannot proceed.". *)
Theorem no_candidate_no_connection D (env : Env D) device dry_run replace_config
    commit_changes show_debug :
  golden_config_models_importable env = false
  \/ golden_config_objects_get env device = None
  \/ (exists golden_config,
        golden_config_objects_get env device = Some golden_config
        /\ intended_config golden_config = "") ->
  calls_of (run_job env device dry_run replace_config commit_changes show_debug) = []
  /\ result_of (run_job env device dry_run replace_config commit_changes show_debug)
     = Ok tt
  /\ ~ In (SUCCESS, ("Provisioning completed for " ++ name device)%string)
          (log_of (run_job env device dry_run replace_config commit_changes show_debug))
  /\ forall pf ip,
       platform device = Some pf ->
       napalm_driver pf <> "" ->
       primary_ip4 device = Some ip ->
       exists before,
         log_of (run_job env device dry_run replace_config commit_changes show_debug)
         = before ++ [(ERROR, "No intended configuration available. Cannot proceed.")].
Proof.
  intros Hcfg.
  match goal with
  | |- context [run_job ?e ?d ?a ?b ?c ?dbg] =>
      remember (run_job e d a b c dbg) as r eqn:E
  end.
  match goal with |- ?G => set (Q := G) end.
  revert E. unfold run_job, run, _validate_device, _get_credentials, fetch_username,
    fetch_password, secrets_help, _get_intended_config.
  hide_strings. run_prelude_tree.
  destruct Hcfg as [Hcfg | [Hcfg | [gc [Hcfg Hempty]]]]; rewrite Hcfg;
    try rewrite Hempty; cbv beta iota delta [truthy negb].
  all: repeat (split_case; cbv beta iota).
  all: intros E; subst Q; subst r; unfold result_of, calls_of, log_of;
    cbv beta iota delta [fst snd calls log].
  all: destruct show_debug; unfold entry_when.
  all: (split; [reflexivity |]); (split; [reflexivity |]); (split; [not_in_list |]).
  all: intros pf' ip' Hpf Hdrv Hip.
  all: try discriminate.
  all: try (injection Hpf as <-; congruence).
  all: eexists; reflexivity.
Qed.


Lemma no_candidate_no_connection_witness :
  (exists golden_config,
     golden_config_objects_get (Fake.env (Fake.all_ok "+vlan 10") (Fake.intended ""))
       Fake.leaf1 = Some golden_config
     /\ intended_config golden_config = "")
  /\ calls_of (run_job (Fake.env (Fake.all_ok "+vlan 10") (Fake.intended ""))
                 Fake.leaf1 false false true false) = [].
Proof.
  assert (H1 : exists golden_config,
             golden_config_objects_get
               (Fake.env (Fake.all_ok "+vlan 10") (Fake.intended "")) Fake.leaf1
             = Some golden_config
             /\ intended_config golden_config = "")
    by (eexists; split; reflexivity).
  split; [exact H1 |].
  exact (proj1 (no_candidate_no_connection nat
           (Fake.env (Fake.all_ok "+vlan 10") (Fake.intended "")) Fake.leaf1
           false false true false (or_intror (or_intror H1)))).
Defined.
(** Once the address, the platform and the optional arguments are there,
    [_deploy_config] returns to its caller whatever the driver does, and
    from any job state. *)
Lemma _deploy_config_returns D (env : Env D) device config username password
    dry_run replace commit ip pf optional_args (st : State D) :
  primary_ip4 device = Some ip ->
  platform device = Some pf ->
  parse_optional_args env pf = Ok optional_args ->
  fst (_deploy_config env device config username password dry_run replace commit st)
    = Ok tt.
Proof.
  intros Hip Hpf Hargs.
  unfold _deploy_config, deploy_try, deploy_body, deploy_handlers, deploy_finally.
  hide_strings.
  run_job_tree.
  rewrite Hip, Hpf, Hargs.
  repeat (cbv beta iota; try split_case).
  all: repeat match goal with u : unit |- _ => destruct u end; reflexivity.
Qed.

(** C10 as the code has it. For a device that passes validation and has
    a non-empty intended configuration, and whose [napalm_args] decode,
    the job returns to its caller and logs "Provisioning completed for
    ..." at success tier, whatever the driver lookup, the driver
    constructor and every driver call return or raise. *)
Theorem transport_errors_never_stop_the_job D (env : Env D) device dry_run replace_config
    commit_changes show_debug pf ip golden_config optional_args :
  platform device = Some pf ->
  napalm_driver pf <> "" ->
  primary_ip4 device = Some ip ->
  golden_config_models_importable env = true ->
  golden_config_objects_get env device = Some golden_config ->
  intended_config golden_config <> "" ->
  parse_optional_args env pf = Ok optional_args ->
  result_of (run_job env device dry_run replace_config commit_changes show_debug) = Ok tt
  /\ In (SUCCESS, ("Provisioning completed for " ++ name device)%string)
        (log_of (run_job env device dry_run replace_config commit_changes show_debug)).
Proof.
  intros Hpf Hdrv Hip Hmodels Hget Hcfg Hargs.
  assert (Hd : truthy (napalm_driver pf) = true)
    by (destruct (napalm_driver pf); [congruence | reflexivity]).
  assert (Hc : truthy (intended_config golden_config) = true)
    by (destruct (intended_config golden_config); [congruence | reflexivity]).
  match goal with
  | |- context [run_job ?e ?d ?a ?b ?c ?dbg] =>
      remember (run_job e d a b c dbg) as r eqn:E
  end.
  match goal with |- ?G => set (Q := G) end.
  revert E. unfold run_job, run, _validate_device, _get_credentials, fetch_username,
    fetch_password, secrets_help, _get_intended_config.
  hide_strings. run_prelude_tree.
  rewrite Hpf, Hip, Hmodels, Hget. cbv beta iota. rewrite Hd, Hc.
  cbv beta iota delta [negb].
  repeat (split_case; cbv beta iota).
  all: intros E; subst Q; subst r; unfold result_of, log_of; cbv beta iota delta [fst snd log].
  all: try match goal with
       | H : _deploy_config ?e ?d ?c ?u ?p ?a ?b ?cm ?st = (?res, _) |- _ =>
           let R := fresh "R" in
           pose proof (_deploy_config_returns _ e d c u p a b cm ip pf optional_args st
                         Hip Hpf Hargs) as R;
           rewrite H in R; cbv beta iota delta [fst] in R
       end.
  all: try discriminate.
  all: split; [reflexivity | in_app].
Qed.


Lemma transport_errors_never_stop_the_job_witness :
  platform Fake.leaf1 = Some Fake.eos
  /\ napalm_driver Fake.eos <> ""
  /\ primary_ip4 Fake.leaf1 = Some "10.0.0.1"
  /\ intended_config {| intended_config := "vlan 10";
                        intended_last_success_date := Some "2024-01-01";
                        last_modified := None |} <> ""
  /\ parse_optional_args (Fake.env Fake.open_refused (Fake.intended "vlan 10")) Fake.eos
     = Ok (VDict [])
  /\ In (SUCCESS, "Provisioning completed for leaf1")
        (log_of (run_job (Fake.env Fake.open_refused (Fake.intended "vlan 10"))
                   Fake.leaf1 false false true false)).
Proof.
  assert (H1 : platform Fake.leaf1 = Some Fake.eos) by reflexivity.
  assert (H2 : napalm_driver Fake.eos <> "") by discriminate.
  assert (H3 : primary_ip4 Fake.leaf1 = Some "10.0.0.1") by reflexivity.
  assert (H4 : intended_config {| intended_config := "vlan 10";
                                  intended_last_success_date := Some "2024-01-01";
                                  last_modified := None |} <> "") by discriminate.
  assert (H5 : parse_optional_args (Fake.env Fake.open_refused (Fake.intended "vlan 10"))
                 Fake.eos = Ok (VDict [])) by reflexivity.
  split; [exact H1 | split; [exact H2 | split; [exact H3 | split; [exact H4 |
    split; [exact H5 |]]]]].
  exact (proj2 (transport_errors_never_stop_the_job nat
           (Fake.env Fake.open_refused (Fake.intended "vlan 10")) Fake.leaf1
           false false true false Fake.eos "10.0.0.1"
           {| intended_config := "vlan 10";
              intended_last_success_date := Some "2024-01-01";
              last_modified := None |}
           (VDict []) H1 H2 H3 eq_refl eq_refl H4 H5)).
Defined.

(** C10 as stated fails: [napalm_args] holding the string ["{"] makes
    [json.loads] raise before the [try] statement; the exception leaves
    [_deploy_config] and [run], no driver is called and "Provisioning
    completed" is never logged. *)
Lemma undecodable_napalm_args_raise :
  result_of (run_job (Fake.env (Fake.all_ok "+vlan 10") (Fake.intended "vlan 10"))
               (Fake.leaf1_with_args "{") false false true false)
  = Raise (Fake.error OtherException "JSONDecodeError"
             "Expecting property name enclosed in double quotes: line 1 column 2 (char 1)")
  /\ calls_of (run_job (Fake.env (Fake.all_ok "+vlan 10") (Fake.intended "vlan 10"))
                 (Fake.leaf1_with_args "{") false false true false) = []
  /\ log_of (run_job (Fake.env (Fake.all_ok "+vlan 10") (Fake.intended "vlan 10"))
               (Fake.leaf1_with_args "{") false false true false)
     = [(SUCCESS, "Device validation passed");
        (SUCCESS, "Found existing intended config (last updated: 2024-01-01)")].
Proof.
  repeat split; vm_compute; reflexivity.
Qed.


(** Use a hypothesis [In c (map fst calls)] on an explicit list of calls. *)
Ltac pick_call H :=
  simpl in H;
  repeat (destruct H as [H | H];
          [ first [ discriminate H | subst ] | ]);
  try contradiction.

Ltac no_unit := repeat match goal with u : unit |- _ => destruct u end.


(** ** The calls of an attempt *)

(** What every path of an attempt has in common, as far as its calls go. *)
Lemma attempt_call_facts D (env : Env D) device config username password
    dry_run replace commit show_debug :
  (times is_open (calls_of (attempt env device config username password dry_run replace
                             commit show_debug)) <= 1
  /\ times is_load (calls_of (attempt env device config username password dry_run replace
                                commit show_debug)) <= 1
  /\ times is_compare (calls_of (attempt env device config username password dry_run
                                   replace commit show_debug)) <= 1
  /\ times is_commit (calls_of (attempt env device config username password dry_run
                                  replace commit show_debug)) <= 1
  /\ times is_get_facts (calls_of (attempt env device config username password dry_run
                                     replace commit show_debug)) <= 1
  /\ times is_discard (calls_of (attempt env device config username password dry_run
                                   replace commit show_debug)) <= 2
  /\ times is_close (calls_of (attempt env device config username password dry_run
                                 replace commit show_debug))
     = times is_open (calls_of (attempt env device config username password dry_run
                                  replace commit show_debug)))
  /\ (forall c o,
  In (c, o) (calls_of (attempt env device config username password dry_run replace commit
                         show_debug)) ->
  is_load c = true ->
  c = (if replace then LoadReplaceCandidate config else LoadMergeCandidate config))
  /\ (In CommitConfig
     (map fst (calls_of (attempt env device config username password dry_run replace
                           commit show_debug))) ->
  dry_run = false
  /\ commit = true
  /\ exists diff,
       diff <> ""
       /\ In (CompareConfig, ReturnedText diff)
             (calls_of (attempt env device config username password dry_run replace
                          commit show_debug)))
  /\ ((calls_of (attempt env device config username password dry_run replace commit
               show_debug) = []
   \/ exists o rest,
        calls_of (attempt env device config username password dry_run replace commit
                    show_debug) = (Open, o) :: rest)
  /\ (forall c,
        In c (map fst (calls_of (attempt env device config username password dry_run
                                   replace commit show_debug))) ->
        is_load c = true ->
        In (Open, Returned)
           (calls_of (attempt env device config username password dry_run replace commit
                        show_debug)))
  /\ (In CompareConfig
         (map fst (calls_of (attempt env device config username password dry_run replace
                               commit show_debug))) ->
      exists c,
        is_load c = true
        /\ In (c, Returned)
              (calls_of (attempt env device config username password dry_run replace
                           commit show_debug)))
  /\ (In GetFacts
         (map fst (calls_of (attempt env device config username password dry_run replace
                               commit show_debug))) ->
      In (CommitConfig, Returned)
         (calls_of (attempt env device config username password dry_run replace commit
                      show_debug))))
  /\ stops_at_failure (calls_of (attempt env device config username password dry_run replace
                                   commit show_debug)) = true
  /\ (calls_of (attempt env device config username password dry_run replace commit show_debug)
  = [] ->
  (exists e,
     result_of (attempt env device config username password dry_run replace commit
                  show_debug) = Raise e)
  \/ has_level ERROR
       (log_of (attempt env device config username password dry_run replace commit
                  show_debug)) = true).
Proof.
  unfold times, has_level.
  all_paths.
  all: split; [simpl; repeat split; lia |].
  all: split; [intros c o Hin Hload; use_in Hin; first [discriminate Hload | reflexivity] |].
  all: split;
    [ intros Hin; use_in Hin;
      (split; [reflexivity | split; [reflexivity |]]);
      match goal with H : truthy ?d = true |- _ =>
        exists d; split;
          [ let E := fresh in intro E; rewrite E in H; discriminate H | in_list ] end |].
  all: split;
    [ (split; [first [left; reflexivity | right; eexists; eexists; reflexivity] |]);
      (split; [intros c Hin Hload; pick_call Hin; first [discriminate Hload | in_list] |]);
      (split;
         [ intros Hin; pick_call Hin;
           first [ exists (LoadReplaceCandidate config); split; [reflexivity | in_list]
                 | exists (LoadMergeCandidate config); split; [reflexivity | in_list] ] |]);
      intros Hin; pick_call Hin; in_list |].
  all: split; [reflexivity |].
  all: intros Hnone; try (simpl in Hnone; discriminate Hnone).
  all: destruct show_debug; unfold entry_when;
    first [left; eexists; reflexivity | right; reflexivity].
Qed.

(** No driver method is called twice in one attempt, except
    [discard_config()], which is called at most twice; [close()] is called
    exactly as often as [open()]. *)
Theorem each_driver_call_at_most_once D (env : Env D) device config username password
    dry_run replace commit show_debug :
  times is_open (calls_of (attempt env device config username password dry_run replace
                             commit show_debug)) <= 1
  /\ times is_load (calls_of (attempt env device config username password dry_run replace
                                commit show_debug)) <= 1
  /\ times is_compare (calls_of (attempt env device config username password dry_run
                                   replace commit show_debug)) <= 1
  /\ times is_commit (calls_of (attempt env device config username password dry_run
                                  replace commit show_debug)) <= 1
  /\ times is_get_facts (calls_of (attempt env device config username password dry_run
                                     replace commit show_debug)) <= 1
  /\ times is_discard (calls_of (attempt env device config username password dry_run
                                   replace commit show_debug)) <= 2
  /\ times is_close (calls_of (attempt env device config username password dry_run
                                 replace commit show_debug))
     = times is_open (calls_of (attempt env device config username password dry_run
                                  replace commit show_debug)).
Proof.
  exact (proj1 (attempt_call_facts D env device config username password dry_run replace commit
           show_debug)).
Qed.


(** A candidate is staged with [load_replace_candidate] when [replace] is
    set and with [load_merge_candidate] otherwise, and always with the
    configuration the attempt was given. *)
Theorem staging_mode_follows_replace D (env : Env D) device config username password
    dry_run replace commit show_debug c o :
  In (c, o) (calls_of (attempt env device config username password dry_run replace commit
                         show_debug)) ->
  is_load c = true ->
  c = (if replace then LoadReplaceCandidate config else LoadMergeCandidate config).
Proof.
  exact (proj1 (proj2 (attempt_call_facts D env device config username password dry_run replace commit
           show_debug)) c o).
Qed.

Lemma staging_mode_follows_replace_witness :
  In (LoadMergeCandidate "vlan 10", Returned)
     (calls_of (attempt (Fake.env (Fake.all_ok "+vlan 10") None) Fake.leaf1
                  "vlan 10" "admin" "admin" false false true false))
  /\ is_load (LoadMergeCandidate "vlan 10") = true
  /\ LoadMergeCandidate "vlan 10"
     = (if false then LoadReplaceCandidate "vlan 10" else LoadMergeCandidate "vlan 10").
Proof.
  assert (H1 : In (LoadMergeCandidate "vlan 10", Returned)
                 (calls_of (attempt (Fake.env (Fake.all_ok "+vlan 10") None) Fake.leaf1
                              "vlan 10" "admin" "admin" false false true false)))
    by (vm_compute; right; left; reflexivity).
  assert (H2 : is_load (LoadMergeCandidate "vlan 10") = true) by reflexivity.
  split; [exact H1 | split; [exact H2 |]].
  exact (staging_mode_follows_replace nat (Fake.env (Fake.all_ok "+vlan 10") None)
           Fake.leaf1 "vlan 10" "admin" "admin" false false true false
           (LoadMergeCandidate "vlan 10") Returned H1 H2).
Defined.

(** [commit_config()] is called only in a live run with commits enabled
    and after [compare_config()] returned a non-empty diff. *)
Theorem commit_only_when_live D (env : Env D) device config username password
    dry_run replace commit show_debug :
  In CommitConfig
     (map fst (calls_of (attempt env device config username password dry_run replace
                           commit show_debug))) ->
  dry_run = false
  /\ commit = true
  /\ exists diff,
       diff <> ""
       /\ In (CompareConfig, ReturnedText diff)
             (calls_of (attempt env device config username password dry_run replace
                          commit show_debug)).
Proof.
  exact (proj1 (proj2 (proj2 (attempt_call_facts D env device config username password dry_run replace commit
           show_debug)))).
Qed.

Lemma commit_only_when_live_witness :
  In CommitConfig
     (map fst (calls_of (attempt (Fake.env (Fake.all_ok "+vlan 10") None) Fake.leaf1
                           "vlan 10" "admin" "admin" false false true false)))
  /\ exists diff,
       diff <> ""
       /\ In (CompareConfig, ReturnedText diff)
             (calls_of (attempt (Fake.env (Fake.all_ok "+vlan 10") None) Fake.leaf1
                          "vlan 10" "admin" "admin" false false true false)).
Proof.
  assert (H1 : In CommitConfig
                 (map fst (calls_of (attempt (Fake.env (Fake.all_ok "+vlan 10") None)
                                       Fake.leaf1 "vlan 10" "admin" "admin"
                                       false false true false))))
    by (vm_compute; right; right; right; left; reflexivity).
  split; [exact H1 |].
  exact (proj2 (proj2
           (commit_only_when_live nat (Fake.env (Fake.all_ok "+vlan 10") None)
              Fake.leaf1 "vlan 10" "admin" "admin" false false true false H1))).
Defined.

(** The calls follow the workflow: [open()] is the first call; a
    candidate is loaded only after [open()] returned, compared only after
    the load returned, and [get_facts()] is called only after
    [commit_config()] returned. *)
Theorem calls_follow_the_workflow D (env : Env D) device config username password
    dry_run replace commit show_debug :
  (calls_of (attempt env device config username password dry_run replace commit
               show_debug) = []
   \/ exists o rest,
        calls_of (attempt env device config username password dry_run replace commit
                    show_debug) = (Open, o) :: rest)
  /\ (forall c,
        In c (map fst (calls_of (attempt env device config username password dry_run
                                   replace commit show_debug))) ->
        is_load c = true ->
        In (Open, Returned)
           (calls_of (attempt env device config username password dry_run replace commit
                        show_debug)))
  /\ (In CompareConfig
         (map fst (calls_of (attempt env device config username password dry_run replace
                               commit show_debug))) ->
      exists c,
        is_load c = true
        /\ In (c, Returned)
              (calls_of (attempt env device config username password dry_run replace
                           commit show_debug)))
  /\ (In GetFacts
         (map fst (calls_of (attempt env device config username password dry_run replace
                               commit show_debug))) ->
      In (CommitConfig, Returned)
         (calls_of (attempt env device config username password dry_run replace commit
                      show_debug))).
Proof.
  exact (proj1 (proj2 (proj2 (proj2 (attempt_call_facts D env device config username password dry_run replace commit
           show_debug))))).
Qed.

Lemma calls_follow_the_workflow_witness :
  In GetFacts
     (map fst (calls_of (attempt (Fake.env (Fake.all_ok "+vlan 10") None) Fake.leaf1
                           "vlan 10" "admin" "admin" false false true false)))
  /\ In (CommitConfig, Returned)
        (calls_of (attempt (Fake.env (Fake.all_ok "+vlan 10") None) Fake.leaf1
                     "vlan 10" "admin" "admin" false false true false)).
Proof.
  assert (H1 : In GetFacts
                 (map fst (calls_of (attempt (Fake.env (Fake.all_ok "+vlan 10") None)
                                       Fake.leaf1 "vlan 10" "admin" "admin"
                                       false false true false))))
    by (vm_compute; right; right; right; right; left; reflexivity).
  split; [exact H1 |].
  exact (proj2 (proj2 (proj2
           (calls_follow_the_workflow nat (Fake.env (Fake.all_ok "+vlan 10") None)
              Fake.leaf1 "vlan 10" "admin" "admin" false false true false))) H1).
Defined.

Lemma stops_at_failure_sound (tr : list Event) :
  stops_at_failure tr = true ->
  forall before c e after,
    tr = before ++ (c, Raised e) :: after ->
    Forall (fun ev => is_cleanup (fst ev) = true) after.
Proof.
  intros Hstop before. revert tr Hstop.
  induction before as [| ev before IH]; intros tr Hstop c e after ->.
  - simpl in Hstop. apply Forall_forall. intros ev Hev.
    rewrite forallb_forall in Hstop. apply Hstop, Hev.
  - simpl in Hstop. destruct ev as [c' o'].
    destruct o'; try (eapply IH; [exact Hstop | reflexivity]).
    rewrite forallb_app in Hstop. apply andb_true_iff in Hstop as [_ Hstop].
    simpl in Hstop. apply andb_true_iff in Hstop as [_ Hstop].
    apply Forall_forall. intros ev Hev.
    rewrite forallb_forall in Hstop. apply Hstop, Hev.
Qed.


(** Once a driver call has raised, the attempt makes no further call on
    the driver except [discard_config()] and [close()]. *)
Theorem only_cleanup_follows_a_failure D (env : Env D) device config username password
    dry_run replace commit show_debug before c e after :
  calls_of (attempt env device config username password dry_run replace commit show_debug)
  = before ++ (c, Raised e) :: after ->
  Forall (fun ev => is_cleanup (fst ev) = true) after.
Proof.
  intros Hcalls.
  eapply stops_at_failure_sound; [| exact Hcalls].
  exact (proj1 (proj2 (proj2 (proj2 (proj2
           (attempt_call_facts D env device config username password dry_run replace commit show_debug)))))).
Qed.

Lemma only_cleanup_follows_a_failure_witness :
  calls_of (attempt (Fake.env Fake.discard_times_out None) Fake.leaf1
              "vlan 10" "admin" "admin" true false true false)
  = [(Open, Returned); (LoadMergeCandidate "vlan 10", Returned);
     (CompareConfig, ReturnedText "+vlan 10")]
    ++ (DiscardConfig, Raised Fake.timed_out)
       :: [(DiscardConfig, Returned); (Close, Returned)]
  /\ Forall (fun ev => is_cleanup (fst ev) = true)
       [(DiscardConfig, Returned); (Close, Returned)].
Proof.
  assert (H1 : calls_of (attempt (Fake.env Fake.discard_times_out None) Fake.leaf1
                           "vlan 10" "admin" "admin" true false true false)
               = [(Open, Returned); (LoadMergeCandidate "vlan 10", Returned);
                  (CompareConfig, ReturnedText "+vlan 10")]
                 ++ (DiscardConfig, Raised Fake.timed_out)
                    :: [(DiscardConfig, Returned); (Close, Returned)])
    by (vm_compute; reflexivity).
  split; [exact H1 |].
  exact (only_cleanup_follows_a_failure nat (Fake.env Fake.discard_times_out None)
           Fake.leaf1 "vlan 10" "admin" "admin" true false true false
           [(Open, Returned); (LoadMergeCandidate "vlan 10", Returned);
            (CompareConfig, ReturnedText "+vlan 10")]
           DiscardConfig Fake.timed_out [(DiscardConfig, Returned); (Close, Returned)]
           H1).
Defined.

(** An attempt that made no call on a driver either raised to its caller
    or logged an error: it never ends silently. *)
Theorem no_call_is_reported_or_raised D (env : Env D) device config username password
    dry_run replace commit show_debug :
  calls_of (attempt env device config username password dry_run replace commit show_debug)
  = [] ->
  (exists e,
     result_of (attempt env device config username password dry_run replace commit
                  show_debug) = Raise e)
  \/ has_level ERROR
       (log_of (attempt env device config username password dry_run replace commit
                  show_debug)) = true.
Proof.
  exact (proj2 (proj2 (proj2 (proj2 (proj2 (attempt_call_facts D env device config username password dry_run replace commit
           show_debug)))))).
Qed.

Lemma no_call_is_reported_or_raised_witness :
  calls_of (attempt env_without_driver Fake.leaf1
              "vlan 10" "admin" "admin" true false true false) = []
  /\ ((exists e,
         result_of (attempt env_without_driver Fake.leaf1
                      "vlan 10" "admin" "admin" true false true false) = Raise e)
      \/ has_level ERROR
           (log_of (attempt env_without_driver Fake.leaf1
                      "vlan 10" "admin" "admin" true false true false)) = true).
Proof.
  assert (H1 : calls_of (attempt env_without_driver Fake.leaf1
                           "vlan 10" "admin" "admin" true false true false) = [])
    by (vm_compute; reflexivity).
  split; [exact H1 |].
  exact (no_call_is_reported_or_raised nat env_without_driver Fake.leaf1
           "vlan 10" "admin" "admin" true false true false H1).
Defined.

(** A [close()] that raises is not passed on to the caller: the attempt
    returns, and the last entry of its log is the warning "Error closing
    connection: ..." with the text of the exception. *)
Theorem close_failure_is_a_warning D (env : Env D) device config username password
    dry_run replace commit show_debug e :
  In (Close, Raised e)
     (calls_of (attempt env device config username password dry_run replace commit
                  show_debug)) ->
  result_of (attempt env device config username password dry_run replace commit show_debug)
  = Ok tt
  /\ exists before,
       log_of (attempt env device config username password dry_run replace commit
                 show_debug)
       = before ++ [(WARNING, ("Error closing connection: " ++ exn_str e)%string)].
Proof.
  all_paths.
  all: intros Hin; use_in Hin.
  all: no_unit; split; [reflexivity | eexists; reflexivity].
Qed.

Lemma close_failure_is_a_warning_witness :
  In (Close, Raised Fake.timed_out)
     (calls_of (attempt (Fake.env close_fails None) Fake.leaf1
                  "vlan 10" "admin" "admin" true false true false))
  /\ result_of (attempt (Fake.env close_fails None) Fake.leaf1
                  "vlan 10" "admin" "admin" true false true false) = Ok tt.
Proof.
  assert (H1 : In (Close, Raised Fake.timed_out)
                 (calls_of (attempt (Fake.env close_fails None) Fake.leaf1
                              "vlan 10" "admin" "admin" true false true false)))
    by (vm_compute; right; right; right; right; left; reflexivity).
  split; [exact H1 |].
  exact (proj1 (close_failure_is_a_warning nat (Fake.env close_fails None) Fake.leaf1
                  "vlan 10" "admin" "admin" true false true false Fake.timed_out H1)).
Defined.

(** In a live run with commits disabled, [commit_config()] is never
    called; after a non-empty diff the candidate is discarded, the warning
    "Commit disabled: Changes loaded but not committed" is logged and no
    commit is announced. *)
Theorem disabled_commit_discards D (env : Env D) device config username password
    replace show_debug :
  times is_commit
    (calls_of (attempt env device config username password false replace false
                 show_debug)) = 0
  /\ forall diff,
       In (CompareConfig, ReturnedText diff)
          (calls_of (attempt env device config username password false replace false
                       show_debug)) ->
       diff <> "" ->
       In DiscardConfig
          (map fst (calls_of (attempt env device config username password false replace
                                false show_debug)))
       /\ In (WARNING, "Commit disabled: Changes loaded but not committed")
             (log_of (attempt env device config username password false replace false
                        show_debug))
       /\ ~ In (SUCCESS, "Configuration committed successfully and saved to startup-config")
               (log_of (attempt env device config username password false replace false
                          show_debug)).
Proof.
  unfold times.
  all_paths.
  all: split; [reflexivity |].
  all: intros diff Hdiff Hne; use_in Hdiff.
  all: try (exfalso; match goal with H : truthy ?d = false |- _ =>
                       destruct d; [congruence | discriminate H] end).
  all: destruct show_debug; unfold entry_when.
  all: (split; [in_list |]); (split; [in_list | not_in_list]).
Qed.

Lemma disabled_commit_discards_witness :
  In (CompareConfig, ReturnedText "+vlan 10")
     (calls_of (attempt (Fake.env (Fake.all_ok "+vlan 10") None) Fake.leaf1
                  "vlan 10" "admin" "admin" false false false false))
  /\ "+vlan 10" <> ""
  /\ In DiscardConfig
        (map fst (calls_of (attempt (Fake.env (Fake.all_ok "+vlan 10") None) Fake.leaf1
                              "vlan 10" "admin" "admin" false false false false))).
Proof.
  assert (H1 : In (CompareConfig, ReturnedText "+vlan 10")
                 (calls_of (attempt (Fake.env (Fake.all_ok "+vlan 10") None) Fake.leaf1
                              "vlan 10" "admin" "admin" false false false false)))
    by (vm_compute; right; right; left; reflexivity).
  assert (H2 : "+vlan 10" <> "") by discriminate.
  split; [exact H1 | split; [exact H2 |]].
  exact (proj1 (proj2 (disabled_commit_discards nat
                         (Fake.env (Fake.all_ok "+vlan 10") None) Fake.leaf1
                         "vlan 10" "admin" "admin" false false)
                  "+vlan 10" H1 H2)).
Defined.

(** When [get_facts()] returned, the attempt made exactly the calls open,
    load, compare, commit, get_facts and close, announced the commit, and
    reported the device under the ['hostname'] entry of the facts, printed
    as "None" when the entry is missing; no error was logged. *)
Theorem committed_device_is_reported D (env : Env D) device config username password
    dry_run replace commit show_debug facts :
  In (GetFacts, ReturnedFacts facts)
     (calls_of (attempt env device config username password dry_run replace commit
                  show_debug)) ->
  map fst (calls_of (attempt env device config username password dry_run replace commit
                       show_debug))
  = [Open; if replace then LoadReplaceCandidate config else LoadMergeCandidate config;
     CompareConfig; CommitConfig; GetFacts; Close]
  /\ In (SUCCESS, "Configuration committed successfully and saved to startup-config")
        (log_of (attempt env device config username password dry_run replace commit
                   show_debug))
  /\ In (SUCCESS, ("Device " ++ fmt_opt (dict_get facts "hostname")
                   ++ " is running with new configuration")%string)
        (log_of (attempt env device config username password dry_run replace commit
                   show_debug))
  /\ has_level ERROR
       (log_of (attempt env device config username password dry_run replace commit
                  show_debug)) = false.
Proof.
  unfold has_level.
  all_paths.
  all: intros Hin; use_in Hin.
  all: destruct show_debug; unfold entry_when.
  all: (split; [reflexivity |]); (split; [in_list |]); (split; [in_list | reflexivity]).
Qed.

Lemma committed_device_is_reported_witness :
  In (GetFacts, ReturnedFacts [("hostname", "leaf1")])
     (calls_of (attempt (Fake.env (Fake.all_ok "+vlan 10") None) Fake.leaf1
                  "vlan 10" "admin" "admin" false false true false))
  /\ has_level ERROR
       (log_of (attempt (Fake.env (Fake.all_ok "+vlan 10") None) Fake.leaf1
                  "vlan 10" "admin" "admin" false false true false)) = false.
Proof.
  assert (H1 : In (GetFacts, ReturnedFacts [("hostname", "leaf1")])
                 (calls_of (attempt (Fake.env (Fake.all_ok "+vlan 10") None) Fake.leaf1
                              "vlan 10" "admin" "admin" false false true false)))
    by (vm_compute; right; right; right; right; left; reflexivity).
  split; [exact H1 |].
  exact (proj2 (proj2 (proj2
           (committed_device_is_reported nat (Fake.env (Fake.all_ok "+vlan 10") None)
              Fake.leaf1 "vlan 10" "admin" "admin" false false true false
              [("hostname", "leaf1")] H1)))).
Defined.

(** ** The job log *)

Lemma has_level_app lvl (l1 l2 : list LogEntry) :
  has_level lvl (l1 ++ l2) = has_level lvl l1 || has_level lvl l2.
Proof. apply existsb_app. Qed.

(** With [_show_debug] unset, [_deploy_config] adds no info-tier and no
    debug-tier entry and leaves the attribute unset. *)
Lemma _deploy_config_keeps_quiet D (env : Env D) device config username password
    dry_run replace commit (st : State D) :
  show_debug_attr st = false ->
  has_level INFO (log st) = false ->
  has_level DEBUG (log st) = false ->
  show_debug_attr
    (snd (_deploy_config env device config username password dry_run replace commit st))
  = false
  /\ has_level INFO
       (log (snd (_deploy_config env device config username password dry_run replace
                    commit st))) = false
  /\ has_level DEBUG
       (log (snd (_deploy_config env device config username password dry_run replace
                    commit st))) = false.
Proof.
  destruct st as [nd dbg tr lg]. cbn [show_debug_attr log].
  intros Hquiet Hinfo Hdebug. subst dbg.
  match goal with
  | |- context [_deploy_config ?e ?d ?c ?u ?p ?a ?b ?cm ?s] =>
      remember (_deploy_config e d c u p a b cm s) as r eqn:E
  end.
  match goal with |- ?G => set (Q := G) end.
  revert E.
  unfold _deploy_config, deploy_try, deploy_body, deploy_handlers, deploy_finally,
    attribute_error.
  hide_strings. run_job_tree. unfold entry_when.
  repeat (cbv beta iota; try split_case).
  all: intros E; subst Q; subst r; cbv beta iota delta [fst snd log show_debug_attr].
  all: repeat rewrite has_level_app; rewrite Hinfo, Hdebug.
  all: repeat split; reflexivity.
Qed.

(** Without [show_debug], the log of the job holds no info-tier and no
    debug-tier entry, whatever the device, the stores and the driver do. *)
Theorem job_log_is_quiet_without_show_debug D (env : Env D) device dry_run replace_config
    commit_changes :
  has_level INFO
    (log_of (run_job env device dry_run replace_config commit_changes false)) = false
  /\ has_level DEBUG
       (log_of (run_job env device dry_run replace_config commit_changes false)) = false.
Proof.
  match goal with
  | |- context [run_job ?e ?d ?a ?b ?c ?dbg] =>
      remember (run_job e d a b c dbg) as r eqn:E
  end.
  match goal with |- ?G => set (Q := G) end.
  revert E. unfold run_job, run, _validate_device, _get_credentials, fetch_username,
    fetch_password, secrets_help, _get_intended_config.
  hide_strings. run_prelude_tree. unfold entry_when at 1.
  repeat (cbv beta iota; try split_case).
  all: intros E; subst Q; subst r; unfold log_of; cbv beta iota delta [fst snd log].
  all: try match goal with
       | H : _deploy_config ?e ?d ?c ?u ?p ?a ?b ?cm ?st = (_, ?s) |- _ =>
           let K := fresh "K" in
           pose proof (_deploy_config_keeps_quiet _ e d c u p a b cm st
                         eq_refl eq_refl eq_refl) as K;
           rewrite H in K; cbv beta iota delta [fst snd log show_debug_attr] in K;
           destruct K as [K1 [K2 K3]]; try subst
       end.
  all: unfold entry_when; repeat rewrite has_level_app;
    repeat match goal with K : has_level _ _ = false |- _ => rewrite K end;
    split; reflexivity.
Qed.

(** ** Validation *)

(** [_validate_device] never raises and makes no driver call; it accepts
    a device exactly when the device has a platform with a non-empty
    NAPALM driver name and a primary IPv4 address, and it logs an error
    exactly when it rejects. *)
Theorem validation_passes_iff D device show_debug :
  exists valid,
    fst (@check_device D device show_debug) = Ok valid
    /\ calls (snd (@check_device D device show_debug)) = []
    /\ (valid = true <->
        exists pf ip,
          platform device = Some pf
          /\ napalm_driver pf <> ""
          /\ primary_ip4 device = Some ip)
    /\ has_level ERROR (log (snd (@check_device D device show_debug))) = negb valid.
Proof.
  unfold has_level, check_device, _validate_device.
  cbv beta iota zeta delta
    [bind ret _log_info emit_when logger_success logger_warning logger_error
     emit napalm_device show_debug_attr calls log fst snd].
  destruct (platform device) as [pf |] eqn:Hpf; cbv beta iota.
  - destruct (napalm_driver pf) as [| c rest] eqn:Hdrv; cbv beta iota delta [truthy negb].
    + exists false. split; [reflexivity | split; [reflexivity | split]].
      * split; [discriminate |]. intros [pf' [ip [[= <-] [Hne _]]]]. congruence.
      * destruct show_debug; reflexivity.
    + destruct (primary_ip4 device) as [ip |] eqn:Hip; cbv beta iota.
      * exists true. split; [reflexivity | split; [reflexivity | split]].
        -- split; [| reflexivity]. intros _. exists pf, ip.
           split; [reflexivity | split; [| reflexivity]].
           rewrite Hdrv. discriminate.
        -- destruct show_debug; reflexivity.
      * exists false. split; [reflexivity | split; [reflexivity | split]].
        -- split; [discriminate |]. intros [pf' [ip [_ [_ H]]]]. discriminate H.
        -- destruct show_debug; reflexivity.
  - exists false. split; [reflexivity | split; [reflexivity | split]].
    + split; [discriminate |]. intros [pf' [ip [H _]]]. discriminate H.
    + destruct show_debug; reflexivity.
Qed.

(** For a device that fails validation the job returns without any driver
    call, and the only entry of its log above info tier is one error that
    starts with "Device" and the device name. *)
Theorem invalid_device_stops_the_job D (env : Env D) device dry_run replace_config
    commit_changes show_debug :
  platform device = None
  \/ (exists pf, platform device = Some pf /\ napalm_driver pf = "")
  \/ primary_ip4 device = None ->
  result_of (run_job env device dry_run replace_config commit_changes show_debug) = Ok tt
  /\ calls_of (run_job env device dry_run replace_config commit_changes show_debug) = []
  /\ exists reason,
       filter (fun en => negb (level_eqb (fst en) INFO))
         (log_of (run_job env device dry_run replace_config commit_changes show_debug))
       = [(ERROR, ("Device " ++ name device ++ reason)%string)].
Proof.
  intros Hbad.
  unfold result_of, calls_of, log_of, run_job, run, _validate_device.
  cbv beta iota zeta delta
    [init_state bind ret _log_info emit_when logger_success logger_warning logger_error
     emit set_show_debug napalm_device show_debug_attr calls log fst snd].
  destruct (platform device) as [pf |] eqn:Hpf; cbv beta iota.
  - destruct (napalm_driver pf) as [| c rest] eqn:Hdrv; cbv beta iota delta [truthy negb].
    + split; [reflexivity | split; [reflexivity |]].
      destruct show_debug; eexists; reflexivity.
    + destruct (primary_ip4 device) as [ip |] eqn:Hip; cbv beta iota.
      * exfalso. destruct Hbad as [H | [[pf' [[= <-] H]] | H]]; congruence.
      * split; [reflexivity | split; [reflexivity |]].
        destruct show_debug; eexists; reflexivity.
  - split; [reflexivity | split; [reflexivity |]].
    destruct show_debug; eexists; reflexivity.
Qed.

Lemma invalid_device_stops_the_job_witness :
  platform leaf_without_platform = None
  /\ calls_of (run_job (Fake.env (Fake.all_ok "+vlan 10") (Fake.intended "vlan 10"))
                 leaf_without_platform false false true true) = [].
Proof.
  assert (H1 : platform leaf_without_platform = None) by reflexivity.
  split; [exact H1 |].
  exact (proj1 (proj2
           (invalid_device_stops_the_job nat
              (Fake.env (Fake.all_ok "+vlan 10") (Fake.intended "vlan 10"))
              leaf_without_platform false false true true (or_introl H1)))).
Defined.

(** ** The credential resolver *)

(** [_get_credentials] never raises and makes no driver call. Without a
    secrets group it returns the default pair; with one, each field is the
    text its own lookup returned when that text is not empty, and
    ["admin"] when the lookup raised or returned the empty text,
    independently of the other field. *)
Theorem credentials_resolved_per_field D (env : Env D) device show_debug :
  fst (resolve_credentials env device show_debug)
  = Ok (match secrets_group device with
        | None => ("admin", "admin")
        | Some sg =>
            (match from_store (get_secret_value env sg TYPE_GENERIC TYPE_USERNAME device)
             with Some username => username | None => "admin" end,
             match from_store (get_secret_value env sg TYPE_GENERIC TYPE_PASSWORD device)
             with Some password => password | None => "admin" end)
        end)
  /\ calls (snd (resolve_credentials env device show_debug)) = [].
Proof.
  unfold from_store.
  run_prelude_tree.
  destruct (secrets_group device) as [sg |]; cbv beta iota.
  - destruct (get_secret_value env sg TYPE_GENERIC TYPE_USERNAME device) as [u | eu];
      [destruct (truthy u) |];
      (destruct (get_secret_value env sg TYPE_GENERIC TYPE_PASSWORD device) as [p | ep];
       [destruct (truthy p) |]);
      cbv beta iota;
      match goal with |- context [if ?b then _ else _] => destruct b end;
      split; reflexivity.
  - split; reflexivity.
Qed.

(** What [_get_credentials] announces: without a secrets group neither a
    success nor a warning; with one, "Using credentials from secrets
    group: ..." and no warning as soon as one field came from the store,
    and otherwise the warning that the group is configured but its secrets
    could not be retrieved, with no success entry. *)
Theorem credentials_provenance_is_announced D (env : Env D) device show_debug :
  match secrets_group device with
  | None =>
      has_level SUCCESS (log (snd (resolve_credentials env device show_debug))) = false
      /\ has_level WARNING (log (snd (resolve_credentials env device show_debug))) = false
  | Some sg =>
      match from_store (get_secret_value env sg TYPE_GENERIC TYPE_USERNAME device),
            from_store (get_secret_value env sg TYPE_GENERIC TYPE_PASSWORD device) with
      | None, None =>
          In (WARNING, ("Secrets group '" ++ sg_name sg ++ "' is configured but "
                        ++ "secrets could not be retrieved. Using default credentials (admin/admin).")%string)
             (log (snd (resolve_credentials env device show_debug)))
          /\ has_level SUCCESS (log (snd (resolve_credentials env device show_debug)))
             = false
      | _, _ =>
          In (SUCCESS, ("Using credentials from secrets group: " ++ sg_name sg)%string)
             (log (snd (resolve_credentials env device show_debug)))
          /\ has_level WARNING (log (snd (resolve_credentials env device show_debug)))
             = false
      end
  end.
Proof.
  unfold from_store, has_level.
  run_prelude_tree.
  destruct (secrets_group device) as [sg |]; cbv beta iota.
  - destruct (get_secret_value env sg TYPE_GENERIC TYPE_USERNAME device) as [u | eu];
      [destruct (truthy u) |];
      (destruct (get_secret_value env sg TYPE_GENERIC TYPE_PASSWORD device) as [p | ep];
       [destruct (truthy p) |]);
      cbv beta iota;
      match goal with |- context [if ?b then _ else _] => destruct b end;
      destruct show_debug; unfold entry_when;
      (split; [in_list | reflexivity]).
  - destruct show_debug; split; reflexivity.
Qed.

(** The log of [_get_credentials] does not depend on the password the
    store returned, beyond whether it is the default ["admin"]. *)
Theorem credentials_log_hides_password D (env1 env2 : Env D) device sg p1 p2 show_debug :
  secrets_group device = Some sg ->
  get_secret_value env1 sg TYPE_GENERIC TYPE_USERNAME device
  = get_secret_value env2 sg TYPE_GENERIC TYPE_USERNAME device ->
  get_secret_value env1 sg TYPE_GENERIC TYPE_PASSWORD device = Ok p1 ->
  get_secret_value env2 sg TYPE_GENERIC TYPE_PASSWORD device = Ok p2 ->
  p1 <> "" ->
  p2 <> "" ->
  (p1 = "admin" <-> p2 = "admin") ->
  log (snd (resolve_credentials env1 device show_debug))
  = log (snd (resolve_credentials env2 device show_debug)).
Proof.
  intros Hsg Huser Hp1 Hp2 Hne1 Hne2 Hadmin.
  assert (Ht1 : truthy p1 = true) by (destruct p1; [congruence | reflexivity]).
  assert (Ht2 : truthy p2 = true) by (destruct p2; [congruence | reflexivity]).
  assert (Heqb : String.eqb p1 "admin" = String.eqb p2 "admin").
  { destruct (String.eqb p1 "admin") eqn:E1; destruct (String.eqb p2 "admin") eqn:E2;
      try reflexivity.
    - apply String.eqb_eq in E1. apply String.eqb_neq in E2. tauto.
    - apply String.eqb_neq in E1. apply String.eqb_eq in E2. tauto. }
  run_prelude_tree.
  rewrite Hsg. cbv beta iota. rewrite Huser, Hp1, Hp2.
  destruct (get_secret_value env2 sg TYPE_GENERIC TYPE_USERNAME device) as [u | eu];
    [destruct (truthy u) |]; cbv beta iota; rewrite Ht1, Ht2; cbv beta iota;
    rewrite Heqb;
    match goal with |- context [if ?b then _ else _] => destruct b end;
    reflexivity.
Qed.

Lemma credentials_log_hides_password_witness :
  secrets_group Fake.leaf1_with_secrets = Some {| sg_name := "lab-credentials" |}
  /\ "s3cret" <> ""
  /\ "hunter2" <> ""
  /\ ("s3cret" = "admin" <-> "hunter2" = "admin")
  /\ log (snd (resolve_credentials
                 (Fake.env_with (secrets_with_password "s3cret") (Fake.all_ok "") None)
                 Fake.leaf1_with_secrets true))
     = log (snd (resolve_credentials
                   (Fake.env_with (secrets_with_password "hunter2") (Fake.all_ok "") None)
                   Fake.leaf1_with_secrets true)).
Proof.
  assert (H1 : secrets_group Fake.leaf1_with_secrets
               = Some {| sg_name := "lab-credentials" |}) by reflexivity.
  assert (H2 : "s3cret" <> "") by discriminate.
  assert (H3 : "hunter2" <> "") by discriminate.
  assert (H4 : "s3cret" = "admin" <-> "hunter2" = "admin")
    by (split; discriminate).
  split; [exact H1 | split; [exact H2 | split; [exact H3 | split; [exact H4 |]]]].
  exact (credentials_log_hides_password nat
           (Fake.env_with (secrets_with_password "s3cret") (Fake.all_ok "") None)
           (Fake.env_with (secrets_with_password "hunter2") (Fake.all_ok "") None)
           Fake.leaf1_with_secrets {| sg_name := "lab-credentials" |}
           "s3cret" "hunter2" true H1 eq_refl eq_refl eq_refl H2 H3 H4).
Defined.

(** ** The intended configuration *)

(** [_get_intended_config] never raises and makes no driver call; it
    returns a configuration exactly when the plugin imports and holds a
    record for the device with a non-empty intended configuration, which
    is then the text returned, and it logs an error exactly when it
    returns nothing. *)
Theorem intended_config_found_iff D (env : Env D) device show_debug :
  exists found,
    fst (lookup_intended_config env device show_debug) = Ok found
    /\ calls (snd (lookup_intended_config env device show_debug)) = []
    /\ (forall config,
          found = Some config <->
          golden_config_models_importable env = true
          /\ exists golden_config,
               golden_config_objects_get env device = Some golden_config
               /\ intended_config golden_config = config
               /\ config <> "")
    /\ has_level ERROR (log (snd (lookup_intended_config env device show_debug)))
       = match found with Some _ => false | None => true end.
Proof.
  unfold has_level, lookup_intended_config, _get_intended_config.
  cbv beta iota zeta delta
    [bind ret _log_info emit_when logger_success logger_warning logger_error
     emit napalm_device show_debug_attr calls log fst snd negb].
  destruct (golden_config_models_importable env) eqn:Hmodels; cbv beta iota.
  - destruct (golden_config_objects_get env device) as [gc |] eqn:Hget; cbv beta iota.
    + destruct (truthy (intended_config gc)) eqn:Hcfg; cbv beta iota.
      * exists (Some (intended_config gc)).
        split; [reflexivity | split; [reflexivity | split]].
        -- intros config; split.
           ++ intros [= <-]. split; [reflexivity |].
              exists gc. split; [reflexivity | split; [reflexivity |]].
              intros E. rewrite E in Hcfg. discriminate Hcfg.
           ++ intros [_ [gc' [[= <-] [<- _]]]]. reflexivity.
        -- destruct show_debug; unfold entry_when;
             destruct (intended_last_success_date gc);
             [| destruct (last_modified gc) | | destruct (last_modified gc)]; reflexivity.
      * exists None.
        destruct (golden_config_helpers_import_error env); cbv beta iota;
          (split; [reflexivity | split; [reflexivity | split]]).
        1,3: intros config; split; [discriminate |];
          intros [_ [gc' [[= <-] [<- Hne]]]];
          destruct (intended_config gc); [congruence | discriminate Hcfg].
        all: destruct show_debug; reflexivity.
    + exists None.
      destruct (golden_config_helpers_import_error env); cbv beta iota;
        (split; [reflexivity | split; [reflexivity | split]]).
      1,3: intros config; split; [discriminate |];
        intros [_ [gc' [Hgc' _]]]; discriminate Hgc'.
      all: destruct show_debug; reflexivity.
  - exists None. split; [reflexivity | split; [reflexivity | split]].
    + intros config; split; [discriminate | intros [H _]; discriminate H].
    + destruct show_debug; reflexivity.
Qed.

(** ** Text helpers *)

Lemma append_empty_r (s : string) : (s ++ "")%string = s.
Proof. induction s as [| c s IH]; simpl; [reflexivity | now rewrite IH]. Qed.

Lemma append_assoc_str (a b c : string) : ((a ++ b) ++ c)%string = (a ++ b ++ c)%string.
Proof. induction a as [| x a IH]; simpl; [reflexivity | now rewrite IH]. Qed.

Lemma is_prefix_append (a b : string) : is_prefix a (a ++ b) = true.
Proof.
  induction a as [| x a IH]; simpl; [reflexivity |].
  now rewrite Ascii.eqb_refl, IH.
Qed.

Lemma is_prefix_append_both (a b c : string) :
  is_prefix b c = true -> is_prefix (a ++ b) (a ++ c) = true.
Proof.
  intros H. induction a as [| x a IH]; simpl; [exact H |].
  now rewrite Ascii.eqb_refl, IH.
Qed.

Lemma split_lines_aux_not_nil (s cur : string) : split_lines_aux s cur <> [].
Proof.
  revert cur. induction s as [| c s IH]; intros cur; simpl; [discriminate |].
  destruct (Ascii.eqb c (ascii_of_nat 10)); [discriminate | apply IH].
Qed.

(** Joining what [split("\n")] returned gives the text back. *)
Lemma join_split_lines_aux (s cur : string) :
  join_lines (split_lines_aux s cur) = (cur ++ s)%string.
Proof.
  revert cur. induction s as [| c s IH]; intros cur.
  - simpl. now rewrite append_empty_r.
  - simpl. destruct (Ascii.eqb c (ascii_of_nat 10)) eqn:Hc.
    + apply Ascii.eqb_eq in Hc. subst c.
      destruct (split_lines_aux s "") as [| y rest] eqn:Hs.
      * now apply split_lines_aux_not_nil in Hs.
      * change (join_lines (cur :: y :: rest))
          with (cur ++ nl ++ join_lines (y :: rest))%string.
        rewrite <- Hs, IH. reflexivity.
    + rewrite IH, append_assoc_str. reflexivity.
Qed.

(** Joining the first [n] lines gives a prefix of the text. *)
Lemma join_firstn_split_lines_aux (n : nat) (s cur : string) :
  is_prefix (join_lines (firstn n (split_lines_aux s cur))) (cur ++ s) = true.
Proof.
  revert n cur. induction s as [| c s IH]; intros n cur.
  - destruct n as [| n]; simpl; [reflexivity |].
    rewrite firstn_nil. apply is_prefix_append.
  - destruct n as [| n]; [reflexivity |].
    simpl split_lines_aux. destruct (Ascii.eqb c (ascii_of_nat 10)) eqn:Hc.
    + apply Ascii.eqb_eq in Hc. subst c.
      simpl firstn. specialize (IH n "").
      destruct (firstn n (split_lines_aux s "")) as [| y rest] eqn:Hs.
      * apply is_prefix_append.
      * change (join_lines (cur :: y :: rest))
          with (cur ++ nl ++ join_lines (y :: rest))%string.
        apply is_prefix_append_both.
        change (String (ascii_of_nat 10) s) with (nl ++ s)%string.
        apply is_prefix_append_both. exact IH.
    + specialize (IH (S n) (cur ++ String c "")%string).
      rewrite append_assoc_str in IH. exact IH.
Qed.

(** The preview [_get_intended_config] logs of the configuration it found
    is a prefix of that configuration, and the whole of it when it has at
    most ten lines. *)
Theorem config_preview_is_a_prefix D (env : Env D) device golden_config :
  golden_config_models_importable env = true ->
  golden_config_objects_get env device = Some golden_config ->
  intended_config golden_config <> "" ->
  In (INFO, ("Config preview:" ++ nl ++ config_preview (intended_config golden_config)
             ++ nl ++ "...")%string)
     (log (snd (lookup_intended_config env device true)))
  /\ is_prefix (config_preview (intended_config golden_config))
       (intended_config golden_config) = true
  /\ (length (split_lines (intended_config golden_config)) <= 10 ->
      config_preview (intended_config golden_config) = intended_config golden_config).
Proof.
  intros Hmodels Hget Hcfg.
  assert (Htruthy : truthy (intended_config golden_config) = true)
    by (destruct (intended_config golden_config); [congruence | reflexivity]).
  split; [| split].
  - unfold lookup_intended_config, _get_intended_config, config_preview.
    cbv beta iota zeta delta
      [bind ret _log_info emit_when entry_when logger_success logger_warning logger_error
       emit napalm_device show_debug_attr calls log fst snd negb].
    rewrite Hmodels. cbv beta iota. rewrite Hget. cbv beta iota. rewrite Htruthy.
    cbv beta iota.
    destruct (intended_last_success_date golden_config);
      [| destruct (last_modified golden_config)]; cbv beta iota;
      repeat rewrite in_app_iff; right; left; reflexivity.
  - unfold config_preview, split_lines.
    apply (join_firstn_split_lines_aux 10 (intended_config golden_config) "").
  - intros Hlen. unfold config_preview.
    rewrite firstn_all2 by exact Hlen.
    unfold split_lines. apply (join_split_lines_aux (intended_config golden_config) "").
Qed.

Lemma config_preview_is_a_prefix_witness :
  golden_config_models_importable
    (Fake.env (Fake.all_ok "") (Fake.intended "vlan 10")) = true
  /\ intended_config {| intended_config := "vlan 10";
                        intended_last_success_date := Some "2024-01-01";
                        last_modified := None |} <> ""
  /\ is_prefix (config_preview "vlan 10") "vlan 10" = true.
Proof.
  assert (H1 : golden_config_models_importable
                 (Fake.env (Fake.all_ok "") (Fake.intended "vlan 10")) = true)
    by reflexivity.
  assert (H2 : intended_config {| intended_config := "vlan 10";
                                  intended_last_success_date := Some "2024-01-01";
                                  last_modified := None |} <> "") by discriminate.
  split; [exact H1 | split; [exact H2 |]].
  exact (proj1 (proj2
           (config_preview_is_a_prefix nat
              (Fake.env (Fake.all_ok "") (Fake.intended "vlan 10")) Fake.leaf1
              {| intended_config := "vlan 10";
                 intended_last_success_date := Some "2024-01-01";
                 last_modified := None |}
              H1 eq_refl H2))).
Defined.

(** ** What reaches the caller of the job *)

(** The optional arguments fail to parse only when [napalm_args] is a
    non-empty string that [json.loads] rejects. *)
Lemma parse_optional_args_raises D (env : Env D) pf e :
  parse_optional_args env pf = Raise e ->
  exists s, napalm_args pf = VStr s /\ s <> "" /\ json_loads env s = Raise e.
Proof.
  unfold parse_optional_args.
  destruct (napalm_args pf) as [| d | s | truth repr]; simpl; try discriminate.
  - destruct d; discriminate.
  - destruct s as [| c s]; simpl; [discriminate |].
    intros H. exists (String c s). split; [reflexivity | split; [discriminate | exact H]].
  - destruct truth; discriminate.
Qed.

(** An exception leaves [_deploy_config] only from the statements before
    its [try], and then no driver call was made. *)
Lemma _deploy_config_raises_before_try D (env : Env D) device config username password
    dry_run replace commit (st : State D) e :
  fst (_deploy_config env device config username password dry_run replace commit st)
  = Raise e ->
  calls (snd (_deploy_config env device config username password dry_run replace commit
                st)) = calls st
  /\ (primary_ip4 device = None
      \/ platform device = None
      \/ exists pf, platform device = Some pf /\ parse_optional_args env pf = Raise e).
Proof.
  destruct (primary_ip4 device) as [ip |] eqn:Hip.
  - destruct (platform device) as [pf |] eqn:Hpf.
    + destruct (parse_optional_args env pf) as [oa | e'] eqn:Hargs.
      * intros H.
        rewrite (_deploy_config_returns _ env device config username password dry_run
                   replace commit ip pf oa st Hip Hpf Hargs) in H.
        discriminate H.
      * unfold _deploy_config.
        cbv beta iota zeta delta [bind ret lift _log_info emit_when fst snd calls].
        rewrite Hip, Hpf. cbv beta iota. rewrite Hargs. cbv beta iota.
        intros [= <-]. split; [reflexivity |].
        right; right. exists pf. split; [reflexivity | exact Hargs].
    + unfold _deploy_config.
      cbv beta iota zeta delta [bind ret lift _log_info emit_when fst snd calls].
      rewrite Hip, Hpf. cbv beta iota.
      intros _. split; [reflexivity | right; left; reflexivity].
  - unfold _deploy_config.
    cbv beta iota zeta delta [bind ret lift _log_info emit_when fst snd calls].
    rewrite Hip. cbv beta iota.
    intros _. split; [reflexivity | left; reflexivity].
Qed.

(** The job raises to its caller only when the platform's [napalm_args]
    is a non-empty string that [json.loads] rejects; the exception is the
    one [json.loads] raised, and no driver call was made. *)
Theorem job_raises_only_on_undecodable_args D (env : Env D) device dry_run replace_config
    commit_changes show_debug e :
  result_of (run_job env device dry_run replace_config commit_changes show_debug)
  = Raise e ->
  calls_of (run_job env device dry_run replace_config commit_changes show_debug) = []
  /\ exists pf s,
       platform device = Some pf
       /\ napalm_args pf = VStr s
       /\ s <> ""
       /\ json_loads env s = Raise e.
Proof.
  match goal with
  | |- context [run_job ?e ?d ?a ?b ?c ?dbg] =>
      remember (run_job e d a b c dbg) as r eqn:E
  end.
  match goal with |- ?G => set (Q := G) end.
  revert E. unfold run_job, run, _validate_device, _get_credentials, fetch_username,
    fetch_password, secrets_help, _get_intended_config.
  hide_strings. run_prelude_tree.
  repeat (cbv beta iota; try split_case).
  all: intros E; subst Q; subst r; unfold result_of, calls_of;
    cbv beta iota delta [fst snd calls].
  all: intros Hraise; try discriminate Hraise.
  all: injection Hraise as ->.
  all: match goal with
       | H : _deploy_config ?e ?d ?c ?u ?p ?a ?b ?cm ?st = (Raise ?x, _) |- _ =>
           let K := fresh "K" in
           pose proof (_deploy_config_raises_before_try _ e d c u p a b cm st x) as K;
           rewrite H in K; cbv beta iota delta [fst snd calls] in K;
           destruct (K eq_refl) as [Kcalls [Kip | [Kpf | [pf' [Kpf Kargs]]]]]
       end.
  all: try congruence.
  all: split; [exact Kcalls |].
  all: destruct (parse_optional_args_raises _ env pf' _ Kargs) as [s' [Hs [Hne Hload]]].
  all: exists pf', s'; (split; [congruence |]); (split; [exact Hs |]);
    (split; [exact Hne | exact Hload]).
Qed.

Lemma job_raises_only_on_undecodable_args_witness :
  result_of (run_job (Fake.env (Fake.all_ok "+vlan 10") (Fake.intended "vlan 10"))
               (Fake.leaf1_with_args "{") false false true false)
  = Raise (Fake.error OtherException "JSONDecodeError"
             "Expecting property name enclosed in double quotes: line 1 column 2 (char 1)")
  /\ calls_of (run_job (Fake.env (Fake.all_ok "+vlan 10") (Fake.intended "vlan 10"))
                 (Fake.leaf1_with_args "{") false false true false) = [].
Proof.
  assert (H1 : result_of (run_job (Fake.env (Fake.all_ok "+vlan 10")
                                     (Fake.intended "vlan 10"))
                            (Fake.leaf1_with_args "{") false false true false)
               = Raise (Fake.error OtherException "JSONDecodeError"
                          "Expecting property name enclosed in double quotes: line 1 column 2 (char 1)"))
    by (vm_compute; reflexivity).
  split; [exact H1 |].
  exact (proj1
           (job_raises_only_on_undecodable_args nat
              (Fake.env (Fake.all_ok "+vlan 10") (Fake.intended "vlan 10"))
              (Fake.leaf1_with_args "{") false false true false
              (Fake.error OtherException "JSONDecodeError"
                 "Expecting property name enclosed in double quotes: line 1 column 2 (char 1)")
              H1)).
Defined.
